(** * Verification of [scratch.linear_algebra.vector] and
      [scratch.validation.vector]

    The Python module defines a dataclass [Vector] holding a list of floats
    and a decorator [validate_vector] that guards the binary operators.

    The embedding follows the program text:
    - a Python [float] is an IEEE-754 binary64 datum ([spec_float] with
      precision 53 and maximal exponent 1024, rounding to nearest even);
    - list objects live in a heap and a [Vector] holds a reference to its
      list, so that allocation, aliasing and (absence of) mutation are
      visible;
    - every method is a computation in a state-and-exception monad over that
      heap. *)

From Stdlib Require Import ZArith String Bool Lia.
From Stdlib Require Import Floats.SpecFloat.
From stdpp Require Import base option list.

Local Open Scope Z_scope.

(** ** Python floats *)

Module Float.

Definition prec : Z := 53.
Definition emax : Z := 1024.

Definition float : Type := spec_float.

(** The literal [0.0], and the float of a (small) integer literal. *)
Definition zero : float := S754_zero false.
Definition of_Z (n : Z) : float := binary_normalize prec emax n 0 false.
(** [ldexp x e] is [x * 2**e]. *)
Definition ldexp (x : float) (e : Z) : float := SFldexp prec emax x e.

Definition infinity : float := S754_infinity false.
Definition nan : float := S754_nan.

(** A well-formed binary64 datum. *)
Definition valid (x : float) : bool := valid_binary prec emax x.

(** [-x], [x + y], [x - y], [x * y] never raise on floats. *)
Definition neg (x : float) : float := SFopp x.
Definition add (x y : float) : float := SFadd prec emax x y.
Definition sub (x y : float) : float := SFsub prec emax x y.
Definition mul (x y : float) : float := SFmul prec emax x y.

(** [x == y] and [x <= y] on floats. *)
Definition eqb (x y : float) : bool := SFeqb x y.
Definition leb (x y : float) : bool := SFleb x y.

Definition is_nan (x : float) : bool :=
  match x with S754_nan => true | _ => false end.

Definition is_finite (x : float) : bool :=
  match x with S754_zero _ | S754_finite _ _ _ => true | _ => false end.

(** The sign bit is clear (NaN carries no sign here). *)
Definition sign_clear (x : float) : bool :=
  match x with
  | S754_zero s | S754_infinity s | S754_finite s _ _ => negb s
  | S754_nan => true
  end.

(** Not NaN, and the sign bit is clear: [+0.0], a positive finite float or
    [+inf]. *)
Definition nonneg (x : float) : bool :=
  match x with
  | S754_zero false | S754_infinity false | S754_finite false _ _ => true
  | _ => false
  end.

End Float.

Abbreviation float := Float.float.

(** The three shapes the rounding of a non-negative mantissa with sign [s]
    can take: never NaN, and the sign is kept. *)
Inductive rounded (s : bool) : spec_float → Prop :=
  | rounded_zero : rounded s (S754_zero s)
  | rounded_finite m e : rounded s (S754_finite s m e)
  | rounded_infinity : rounded s (S754_infinity s).

(** ** Python objects, exceptions and the heap *)

(** The objects that may sit in a list handed to the constructor. *)
Inductive pyobj : Type :=
  | PyFloat (x : float)
  | PyInt (n : Z)
  | PyBool (b : bool)
  | PyStr (s : string)
  | PyNone.

(** [isinstance(o, float)]: neither [int] nor [bool] is a subclass of
    [float]. *)
Definition isinstance_float (o : pyobj) : bool :=
  match o with PyFloat _ => true | _ => false end.

(** The exceptions the two modules can meet.  [ValueError] and [TypeError]
    carry the message given at the [raise]; [IndexError] is raised by list
    indexing and [ZeroDivisionError] by float division. *)
Inductive exn : Type :=
  | ValueError (msg : string)
  | TypeError (msg : string)
  | IndexError
  | ZeroDivisionError.

(** Result of running a piece of code: a value, a raised exception, or
    [Stuck] for configurations no Python execution reaches (a reference to no
    object; arithmetic on list elements that are not floats, which a
    constructed [Vector] never holds). *)
Inductive outcome (A : Type) : Type :=
  | Ok (a : A)
  | Raise (e : exn)
  | Stuck.
Arguments Ok {A} a.
Arguments Raise {A} e.
Arguments Stuck {A}.

Abbreviation loc := nat.

(** The heap of list objects, addressed in allocation order. *)
Abbreviation heap := (list (list pyobj)).

(** Computations: heap in, outcome and heap out. *)
Definition M (A : Type) : Type := heap → outcome A * heap.

Definition ret {A} (a : A) : M A := λ h, (Ok a, h).
Definition raise {A} (e : exn) : M A := λ h, (Raise e, h).
Definition stuck {A} : M A := λ h, (Stuck, h).
Definition lift {A} (o : outcome A) : M A := λ h, (o, h).

Definition bind {A B} (k : A → M B) (m : M A) : M B :=
  λ h, match m h with
       | (Ok a, h') => k a h'
       | (Raise e, h') => (Raise e, h')
       | (Stuck, h') => (Stuck, h')
       end.

#[global] Instance M_ret : MRet M := @ret.
#[global] Instance M_bind : MBind M := @bind.

(** Reading a list object, and building a new one. *)
Definition load (l : loc) : M (list pyobj) :=
  λ h, match h !! l with
       | Some d => (Ok d, h)
       | None => (Stuck, h)
       end.

Definition new_list (d : list pyobj) : M loc :=
  λ h, (Ok (length h), h ++ [d]).

(** Sequencing inside the exception monad alone. *)
Definition obind {A B} (o : outcome A) (k : A → outcome B) : outcome B :=
  match o with
  | Ok a => k a
  | Raise e => Raise e
  | Stuck => Stuck
  end.

(** [[f(a) for a in xs]] where [f] may raise: the first exception wins. *)
Fixpoint list_comp {A B} (f : A → outcome B) (xs : list A) : outcome (list B) :=
  match xs with
  | [] => Ok []
  | a :: rest =>
      obind (f a) (λ b, obind (list_comp f rest) (λ bs, Ok (b :: bs)))
  end.

(** ** Builtins used by the class *)

(** [x / y] on floats raises [ZeroDivisionError] when [y == 0]. *)
Definition float_truediv (x y : float) : outcome float :=
  if Float.eqb y Float.zero then Raise ZeroDivisionError
  else Ok (SFdiv Float.prec Float.emax x y).

(** [math.sqrt]: a NaN result from a non-NaN argument is a domain error. *)
Definition math_sqrt (x : float) : outcome float :=
  let r := SFsqrt Float.prec Float.emax x in
  if Float.is_nan r && negb (Float.is_nan x)
  then Raise (ValueError "math domain error"%string)
  else Ok r.

(** [sum(xs)] adds the items from left to right, starting from the integer
    [0], which the first float addition turns into [0.0], as the library
    reference defines it.  (CPython 3.12 and later also carry a compensation
    term for the rounding errors along this sum; on a single item and on
    items that are all [0.0] they return the same float.) *)
Definition builtin_sum (xs : list float) : float :=
  fold_left Float.add xs Float.zero.

(** [d[index]] on a list with an integer index: a negative index counts
    from the end. *)
Definition list___getitem__ (d : list pyobj) (index : Z) : outcome pyobj :=
  let n := Z.of_nat (length d) in
  let i := if index <? 0 then index + n else index in
  if i <? 0 then Raise IndexError
  else match d !! Z.to_nat i with
       | Some x => Ok x
       | None => Raise IndexError
       end.

(** ** [scratch.linear_algebra.vector.Vector] *)

(** The dataclass has the single slot [data], a reference to a list. *)
Record Vector : Type := { data : loc }.

(** What the second operand of a binary operator may be. *)
Inductive operand : Type :=
  | IsVector (v : Vector)
  | NotVector (o : pyobj).

(** The loop of [__post_init__] over the elements. *)
Fixpoint check_elements (d : list pyobj) : outcome unit :=
  match d with
  | [] => Ok tt
  | element :: rest =>
      if negb (isinstance_float element)
      then Raise (TypeError "Data must be a float or int"%string)
      else check_elements rest
  end.

Definition Vector___post_init__ (d : list pyobj) : outcome unit :=
  match d with
  | [] => Raise (ValueError "Data cannot be empty"%string)
  | _ => check_elements d
  end.

(** [Vector(data)]: the generated [__init__] binds the slot to the very list
    it is given and runs [__post_init__]. *)
Definition Vector___init__ (l : loc) : M Vector :=
  d ← load l;
  lift (Vector___post_init__ d);;
  ret {| data := l |}.

(** The float payloads of a list whose elements are all floats. *)
Fixpoint as_floats (d : list pyobj) : option (list float) :=
  match d with
  | [] => Some []
  | PyFloat x :: rest => cons x <$> as_floats rest
  | _ :: _ => None
  end.

(** [self.data] read for arithmetic. *)
Definition elements (self : Vector) : M (list float) :=
  d ← load (data self);
  match as_floats d with
  | Some xs => ret xs
  | None => stuck
  end.

(** [Vector([...])] applied to the list a comprehension has just built. *)
Definition Vector_of (ys : list float) : M Vector :=
  l ← new_list (PyFloat <$> ys);
  Vector___init__ l.

Definition Vector___neg__ (self : Vector) : M Vector :=
  xs ← elements self;
  Vector_of (Float.neg <$> xs).

Definition Vector___len__ (self : Vector) : M nat :=
  d ← load (data self);
  ret (length d).

Definition Vector___getitem__ (self : Vector) (index : Z) : M pyobj :=
  d ← load (data self);
  lift (list___getitem__ d index).

(** ** [scratch.validation.vector.validate_vector] *)

Definition validate_vector {A} (function : Vector → Vector → M A)
    (vector_1 : Vector) (vector_2 : operand) : M A :=
  match vector_2 with
  | NotVector _ =>
      raise (TypeError "Operation only supported between Vector instances"%string)
  | IsVector vector_2 =>
      n1 ← Vector___len__ vector_1;
      n2 ← Vector___len__ vector_2;
      if negb (n1 =? n2)%nat
      then raise (ValueError "Vectors must be of same length"%string)
      else function vector_1 vector_2
  end.

(** ** The operators *)

(** The undecorated bodies. *)
Definition add_body (self other : Vector) : M Vector :=
  xs ← elements self;
  ys ← elements other;
  Vector_of (zip_with Float.add xs ys).

Definition sub_body (self other : Vector) : M Vector :=
  xs ← elements self;
  ys ← elements other;
  Vector_of (zip_with Float.sub xs ys).

Definition matmul_body (self other : Vector) : M float :=
  xs ← elements self;
  ys ← elements other;
  ret (builtin_sum (zip_with Float.mul xs ys)).

Definition Vector___add__ : Vector → operand → M Vector :=
  validate_vector add_body.

Definition Vector___sub__ : Vector → operand → M Vector :=
  validate_vector sub_body.

Definition Vector___matmul__ : Vector → operand → M float :=
  validate_vector matmul_body.

Definition Vector___mul__ (self : Vector) (scalar : float) : M Vector :=
  xs ← elements self;
  Vector_of ((λ a, Float.mul a scalar) <$> xs).

Definition Vector___rmul__ (self : Vector) (scalar : float) : M Vector :=
  Vector___mul__ self scalar.

Definition Vector___truediv__ (self : Vector) (scalar : float) : M Vector :=
  xs ← elements self;
  ys ← lift (list_comp (λ a, float_truediv a scalar) xs);
  Vector_of ys.

Definition Vector___abs__ (self : Vector) : M float :=
  s ← Vector___matmul__ self (IsVector self);
  lift (math_sqrt s).

(** [[a / abs(self) for a in self.data]]: [abs(self)] is evaluated afresh
    for every element. *)
Fixpoint normalize_comp (self : Vector) (xs : list float) : M (list float) :=
  match xs with
  | [] => ret []
  | a :: rest =>
      m ← Vector___abs__ self;
      q ← lift (float_truediv a m);
      qs ← normalize_comp self rest;
      ret (q :: qs)
  end.

Definition Vector_normalize (self : Vector) : M Vector :=
  xs ← elements self;
  ys ← normalize_comp self xs;
  Vector_of ys.

Definition Vector_distance (self : Vector) (other : operand) : M float :=
  d ← Vector___sub__ self other;
  Vector___abs__ d.

(** ** The values the operators compute *)

(** [sum(a * b for a, b in zip(xs, ys))] *)
Definition dot (xs ys : list float) : float :=
  builtin_sum (zip_with Float.mul xs ys).

(** The element-wise squares of the differences, as [abs(self - other)]
    forms them. *)
Definition sq_diffs (xs ys : list float) : list float :=
  let ds := zip_with Float.sub xs ys in zip_with Float.mul ds ds.

(** The element-wise IEEE-754 quotients. *)
Definition quotients (xs : list float) (k : float) : list float :=
  (λ a, SFdiv Float.prec Float.emax a k) <$> xs.

(** The exceptions raised by the two modules. *)
Definition length_mismatch : exn :=
  ValueError "Vectors must be of same length"%string.
Definition empty_data : exn := ValueError "Data cannot be empty"%string.
Definition not_a_float : exn := TypeError "Data must be a float or int"%string.

(** ** Predicates of the statements *)

(** [holds h v xs]: in heap [h] the vector [v] refers to the list of floats
    [xs]. *)
Definition holds (h : heap) (v : Vector) (xs : list float) : Prop :=
  h !! data v = Some (PyFloat <$> xs).

(** The class invariant that [__post_init__] checks: the list is non-empty
    and holds floats only. *)
Definition wf (h : heap) (v : Vector) (xs : list float) : Prop :=
  holds h v xs ∧ xs ≠ [].

Definition constructed (h : heap) (v : Vector) : Prop := ∃ xs, wf h v xs.

(** Every element is finite (neither an infinity nor NaN). *)
Definition all_finite (xs : list float) : bool := forallb Float.is_finite xs.


(** ** The public interface as a whole *)

(** One call of the public interface, and the value it returns. *)
Inductive call : Type :=
  | Neg (v : Vector)
  | Len (v : Vector)
  | Getitem (v : Vector) (index : Z)
  | Add (v : Vector) (other : operand)
  | Sub (v : Vector) (other : operand)
  | Mul (v : Vector) (scalar : float)
  | Rmul (v : Vector) (scalar : float)
  | Truediv (v : Vector) (scalar : float)
  | Matmul (v : Vector) (other : operand)
  | Abs (v : Vector)
  | Normalize (v : Vector)
  | Distance (v : Vector) (other : operand).

Inductive value : Type :=
  | VVector (v : Vector)
  | VFloat (x : float)
  | VLen (n : nat)
  | VObj (o : pyobj).

Definition returning {A} (inj : A → value) (m : M A) : M value :=
  a ← m; mret (inj a).

Definition perform (c : call) : M value :=
  match c with
  | Neg v => returning VVector (Vector___neg__ v)
  | Len v => returning VLen (Vector___len__ v)
  | Getitem v index => returning VObj (Vector___getitem__ v index)
  | Add v other => returning VVector (Vector___add__ v other)
  | Sub v other => returning VVector (Vector___sub__ v other)
  | Mul v scalar => returning VVector (Vector___mul__ v scalar)
  | Rmul v scalar => returning VVector (Vector___rmul__ v scalar)
  | Truediv v scalar => returning VVector (Vector___truediv__ v scalar)
  | Matmul v other => returning VFloat (Vector___matmul__ v other)
  | Abs v => returning VFloat (Vector___abs__ v)
  | Normalize v => returning VVector (Vector_normalize v)
  | Distance v other => returning VFloat (Vector_distance v other)
  end.

(** The operands of a call are vectors that satisfy the class invariant. *)
Definition operand_ok (h : heap) (o : operand) : Prop :=
  match o with
  | IsVector v => constructed h v
  | NotVector _ => True
  end.

Definition operands_ok (h : heap) (c : call) : Prop :=
  match c with
  | Neg v | Len v | Getitem v _ | Mul v _ | Rmul v _ | Truediv v _
  | Abs v | Normalize v => constructed h v
  | Add v o | Sub v o | Matmul v o | Distance v o =>
      constructed h v ∧ operand_ok h o
  end.

(** A computation that only ever appends list objects to the heap. *)
Definition extends {A} (m : M A) : Prop :=
  ∀ h, ∃ k, snd (m h) = h ++ k.

(** A computation whose resulting vector refers to a list object that did
    not exist before. *)
Definition fresh (m : M Vector) : Prop :=
  ∀ h v h', m h = (Ok v, h') → (length h ≤ data v < length h')%nat.

(** A computation whose resulting vector satisfies the class invariant. *)
Definition builds (m : M Vector) : Prop :=
  ∀ h v h', m h = (Ok v, h') → constructed h' v.

(** ** Predicates of the further properties *)

Definition type_mismatch : exn :=
  TypeError "Operation only supported between Vector instances"%string.

(** The two errors of the validator, each with the condition it is raised
    under: the second operand is no vector, or [len] differs on the two
    operands. *)
Definition validator_error (h : heap) (a : Vector) (o : operand) (e : exn)
    : Prop :=
  (e = type_mismatch ∧ ∃ x, o = NotVector x)
  ∨ (e = length_mismatch
     ∧ ∃ b n m, o = IsVector b
                ∧ Vector___len__ a h = (Ok n, h)
                ∧ Vector___len__ b h = (Ok m, h)
                ∧ n ≠ m).

(** [r] is NaN or [0.0 <= r]: the float is not negative. *)
Definition not_negative (r : float) : Prop :=
  Float.is_nan r = true ∨ Float.leb Float.zero r = true.

(** What the public interface shows of a vector: [len(v)] is the number of
    the floats [zs], and [v[i]] is [zs[i]]. *)
Definition observes (h : heap) (v : Vector) (zs : list float) : Prop :=
  Vector___len__ v h = (Ok (length zs), h) ∧
  ∀ i z, zs !! i = Some z →
         Vector___getitem__ v (Z.of_nat i) h = (Ok (PyFloat z), h).

(** A computation that leaves the heap as it found it. *)
Definition read_only {A} (m : M A) : Prop := ∀ h, snd (m h) = h.

(** No element is NaN. *)
Definition no_nan (xs : list float) : bool :=
  forallb (λ x, negb (Float.is_nan x)) xs.

(** Every element is [0.0] or [-0.0]. *)
Definition all_zero (xs : list float) : bool :=
  forallb (λ x, Float.eqb x Float.zero) xs.

(** The list of [n] floats [0.0]. *)
Definition zeros (n : nat) : list float := replicate n Float.zero.

(** The vector a call is made on. *)
Definition self_of (c : call) : Vector :=
  match c with
  | Neg v | Len v | Getitem v _ | Add v _ | Sub v _ | Mul v _ | Rmul v _
  | Truediv v _ | Matmul v _ | Abs v | Normalize v | Distance v _ => v
  end.

(** ** Concrete data used in the examples *)

Definition f1 : float := Float.of_Z 1.
Definition f2 : float := Float.of_Z 2.
Definition f3 : float := Float.of_Z 3.
Definition f4 : float := Float.of_Z 4.
Definition f5 : float := Float.of_Z 5.


(** [Vector([1.0, 2.0])] and [Vector([1.0, 2.0, 3.0])]. *)
Definition h_ab : heap :=
  [ [PyFloat f1; PyFloat f2]; [PyFloat f1; PyFloat f2; PyFloat f3] ].
Definition v_a : Vector := {| data := 0%nat |}.
Definition v_b : Vector := {| data := 1%nat |}.

(** [Vector([1.0, 2.0, 3.0])], [Vector([4.0, 5.0, 6.0])],
    [Vector([3.0, 4.0])] and [Vector([0.0, 0.0])]. *)
Definition h_ex : heap :=
  [ [PyFloat f1; PyFloat f2; PyFloat f3];
    [PyFloat (Float.of_Z 4); PyFloat f5; PyFloat (Float.of_Z 6)];
    [PyFloat f3; PyFloat f4];
    [PyFloat Float.zero; PyFloat Float.zero] ].
Definition v_zero : Vector := {| data := 3%nat |}.

(** [Vector([inf])] and [Vector([0.0])]. *)
Definition h_inf : heap := [ [PyFloat Float.infinity]; [PyFloat Float.zero] ].

(** [2.0 ** 600], a finite float whose square overflows to [inf]. *)
Definition big : float := Float.ldexp f1 600.

(** [Vector([2.0**600, -2.0**600])] and [Vector([2.0**600, 2.0**600])]. *)
Definition h_big : heap :=
  [ [PyFloat big; PyFloat (Float.neg big)]; [PyFloat big; PyFloat big] ].
Definition v_big_a : Vector := {| data := 0%nat |}.
Definition v_big_b : Vector := {| data := 1%nat |}.


(** ** Running the primitives *)

Ltac unmonad :=
  unfold mbind, mret, M_bind, M_ret, bind, ret, raise, lift, stuck.

Lemma bind_ok {A B} (m : M A) (k : A → M B) h a h' :
  m h = (Ok a, h') → (m ≫= k) h = k a h'.
Proof. unmonad. by intros ->. Qed.

Lemma bind_raise {A B} (m : M A) (k : A → M B) h e h' :
  m h = (Raise e, h') → (m ≫= k) h = (Raise e, h').
Proof. unmonad. by intros ->. Qed.

Lemma bind_stuck {A B} (m : M A) (k : A → M B) h h' :
  m h = (Stuck, h') → (m ≫= k) h = (Stuck, h').
Proof. unmonad. by intros ->. Qed.

Lemma load_ok h l d : h !! l = Some d → load l h = (Ok d, h).
Proof. unfold load. by intros ->. Qed.

Lemma as_floats_fmap xs : as_floats (PyFloat <$> xs) = Some xs.
Proof. induction xs as [|x xs IH]; csimpl; [done|]. by rewrite IH. Qed.

Lemma as_floats_Some d xs : as_floats d = Some xs → d = PyFloat <$> xs.
Proof.
  revert xs. induction d as [|o d IH]; intros xs; csimpl.
  - by intros [= <-].
  - destruct o; try done.
    destruct (as_floats d) as [ys|]; csimpl; [|done].
    intros [= <-]. csimpl. by rewrite (IH ys).
Qed.

Lemma check_elements_floats xs : check_elements (PyFloat <$> xs) = Ok tt.
Proof. induction xs as [|x xs IH]; csimpl; done. Qed.

Lemma post_init_floats xs :
  xs ≠ [] → Vector___post_init__ (PyFloat <$> xs) = Ok tt.
Proof.
  destruct xs as [|x xs]; [done|]. intros _.
  unfold Vector___post_init__. simpl. apply check_elements_floats.
Qed.

Lemma elements_ok h v xs : holds h v xs → elements v h = (Ok xs, h).
Proof.
  intros Hv. unfold elements.
  rewrite (bind_ok _ _ _ _ _ (load_ok _ _ _ Hv)). cbv beta.
  by rewrite as_floats_fmap.
Qed.

Lemma len_ok h v d : h !! data v = Some d → Vector___len__ v h = (Ok (length d), h).
Proof.
  intros Hv. unfold Vector___len__.
  by rewrite (bind_ok _ _ _ _ _ (load_ok _ _ _ Hv)).
Qed.

Lemma len_holds h v xs :
  holds h v xs → Vector___len__ v h = (Ok (length xs), h).
Proof.
  intros Hv. rewrite (len_ok _ _ _ Hv). by rewrite length_fmap.
Qed.

Lemma init_run h l d :
  h !! l = Some d →
  Vector___init__ l h =
    match Vector___post_init__ d with
    | Ok _ => (Ok {| data := l |}, h)
    | Raise e => (Raise e, h)
    | Stuck => (Stuck, h)
    end.
Proof.
  intros Hl. unfold Vector___init__.
  rewrite (bind_ok _ _ _ _ _ (load_ok _ _ _ Hl)).
  unmonad. by destruct (Vector___post_init__ d).
Qed.

Lemma Vector_of_ok h ys :
  ys ≠ [] →
  Vector_of ys h = (Ok {| data := length h |}, h ++ [PyFloat <$> ys]).
Proof.
  intros Hys. unfold Vector_of.
  erewrite bind_ok; [|reflexivity]. cbv beta.
  rewrite (init_run _ _ (PyFloat <$> ys)).
  - by rewrite post_init_floats.
  - by rewrite lookup_app_r, Nat.sub_diag.
Qed.

Lemma post_init_ok_inv d :
  Vector___post_init__ d = Ok tt → ∃ xs, d = PyFloat <$> xs ∧ xs ≠ [].
Proof.
  unfold Vector___post_init__. destruct d as [|o d]; [done|]. intros Hc.
  assert (∀ d, check_elements d = Ok tt → ∃ xs, as_floats d = Some xs)
    as Hfloats.
  { clear. induction d as [|o d IH]; simpl; [by exists []|].
    destruct o; simpl; try done. intros [xs ->]%IH. by exists (x :: xs). }
  destruct (Hfloats _ Hc) as [xs Hxs]. exists xs.
  apply as_floats_Some in Hxs. split; [done|].
  by destruct xs.
Qed.

(** A vector that the constructor returns holds a non-empty list of
    floats. *)
Lemma init_wf h l v h' :
  Vector___init__ l h = (Ok v, h') → ∃ xs, wf h' v xs.
Proof.
  unfold Vector___init__, load. unmonad.
  destruct (h !! l) as [d|] eqn:Hl; [|done].
  destruct (Vector___post_init__ d) as [[]| |] eqn:Hp; [|done..].
  intros [= <- <-]. destruct (post_init_ok_inv _ Hp) as (xs & -> & Hne).
  by exists xs.
Qed.

Lemma holds_app h k v xs : holds h v xs → holds (h ++ k) v xs.
Proof. unfold holds. intros H. by apply lookup_app_l_Some. Qed.

Lemma wf_app h k v xs : wf h v xs → wf (h ++ k) v xs.
Proof. intros [H1 H2]. split; [by apply holds_app|done]. Qed.

Lemma holds_new h ys : holds (h ++ [PyFloat <$> ys]) {| data := length h |} ys.
Proof. unfold holds. simpl. by rewrite lookup_app_r, Nat.sub_diag. Qed.

Lemma zip_with_nonempty {A B C} (f : A → B → C) xs ys :
  xs ≠ [] → length xs = length ys → zip_with f xs ys ≠ [].
Proof. destruct xs, ys; simpl; done. Qed.

Lemma fmap_nonempty {A B} (f : A → B) (xs : list A) : xs ≠ [] → f <$> xs ≠ [].
Proof. by destruct xs. Qed.

(** ** Facts about binary64 rounding

    The rounding functions of [SpecFloat] are parameterised by the precision
    and the maximal exponent; the facts below hold for every format. *)

Lemma SFopp_involutive x : SFopp (SFopp x) = x.
Proof. by destruct x as [[]|[]| |[] ? ?]. Qed.

Section Rounding.
Variables prec emax : Z.

Lemma shr_1_nonneg mrs : 0 ≤ shr_m mrs → 0 ≤ shr_m (shr_1 mrs).
Proof.
  destruct mrs as [m r s]. simpl.
  destruct m as [|p|p]; simpl; try lia; destruct p; simpl; lia.
Qed.

Lemma iter_pos_inv {A} (P : A → Prop) (f : A → A) :
  (∀ x, P x → P (f x)) → ∀ n x, P x → P (SpecFloat.iter_pos f n x).
Proof.
  intros Hf. induction n as [n IH|n IH|]; intros x Hx; simpl; auto.
Qed.

Lemma shr_nonneg mrs e n : 0 ≤ shr_m mrs → 0 ≤ shr_m (shr mrs e n).1.
Proof.
  intros H. unfold shr. destruct n; simpl; try done.
  by apply (iter_pos_inv (λ r, 0 ≤ shr_m r)); [apply shr_1_nonneg|].
Qed.

Lemma shr_record_of_loc_m m l : shr_m (shr_record_of_loc m l) = m.
Proof. by destruct l as [|[]]. Qed.

Lemma shr_fexp_nonneg m e l : 0 ≤ m → 0 ≤ shr_m (shr_fexp prec emax m e l).1.
Proof.
  intros H. unfold shr_fexp. apply shr_nonneg. by rewrite shr_record_of_loc_m.
Qed.

Lemma round_nearest_even_nonneg m l : 0 ≤ m → 0 ≤ round_nearest_even m l.
Proof.
  intros H. unfold round_nearest_even.
  destruct l as [|[]]; try lia. destruct (Z.even m); lia.
Qed.

Lemma binary_round_aux_rounded s m e l :
  0 ≤ m → rounded s (binary_round_aux prec emax s m e l).
Proof.
  intros H. unfold binary_round_aux.
  pose proof (shr_fexp_nonneg m e l H) as H1.
  destruct (shr_fexp prec emax m e l) as [mrs' e'].
  pose proof (shr_fexp_nonneg _ e' loc_Exact
                (round_nearest_even_nonneg _ (loc_of_shr_record mrs') H1)) as H2.
  destruct (shr_fexp prec emax _ e' loc_Exact) as [mrs'' e''].
  simpl in H2. destruct (shr_m mrs''); [constructor| |lia].
  destruct (_ <=? _); constructor.
Qed.

Lemma binary_round_rounded s m e : rounded s (binary_round prec emax s m e).
Proof.
  unfold binary_round. destruct (shl_align _ _ _) as [mz ez].
  by apply binary_round_aux_rounded.
Qed.



End Rounding.

(** ** Facts about Python float arithmetic *)

Module FloatFacts.
Import Float.

Lemma rounded_sign_clear x : rounded false x → sign_clear x = true.
Proof. by intros []. Qed.

Lemma rounded_nonneg x : rounded false x → nonneg x = true.
Proof. by intros []. Qed.

Lemma rounded_not_nan s x : rounded s x → is_nan x = false.
Proof. by intros []. Qed.

(** [x * y == y * x], as the same datum. *)
Lemma mul_comm x y : mul x y = mul y x.
Proof.
  unfold mul.
  destruct x as [sx|sx| |sx mx ex], y as [sy|sy| |sy my ey]; simpl;
    rewrite ?(xorb_comm sx sy); try done.
  by rewrite (Pos.mul_comm mx my), (Z.add_comm ex ey).
Qed.

Lemma mul_neg_neg z : mul (neg z) (neg z) = mul z z.
Proof. by destruct z as [[]|[]| |[] ? ?]. Qed.



(** A square never has its sign bit set. *)
Lemma sign_clear_sq x : sign_clear (mul x x) = true.
Proof.
  destruct x as [[]|[]| |s m e]; try done.
  unfold mul. simpl. rewrite xorb_nilpotent.
  by apply rounded_sign_clear, binary_round_aux_rounded.
Qed.

Lemma nonneg_sq x : is_nan x = false → nonneg (mul x x) = true.
Proof.
  destruct x as [[]|[]| |s m e]; try done. intros _.
  unfold mul. simpl. rewrite xorb_nilpotent.
  by apply rounded_nonneg, binary_round_aux_rounded.
Qed.

Lemma sign_clear_add x y :
  sign_clear x = true → sign_clear y = true → sign_clear (add x y) = true.
Proof.
  destruct x as [[]|[]| |[] mx ex], y as [[]|[]| |[] my ey]; try done.
  intros _ _. unfold add. simpl.
  apply rounded_sign_clear, binary_round_rounded.
Qed.

Lemma nonneg_add x y :
  nonneg x = true → nonneg y = true → nonneg (add x y) = true.
Proof.
  destruct x as [[]|[]| |[] mx ex], y as [[]|[]| |[] my ey]; try done.
  intros _ _. unfold add. simpl.
  apply rounded_nonneg, binary_round_rounded.
Qed.

Lemma fold_add_inv (P : float → Prop) :
  (∀ x y, P x → P y → P (add x y)) →
  ∀ xs acc, P acc → Forall P xs → P (fold_left add xs acc).
Proof.
  intros Hadd. induction xs as [|x xs IH]; intros acc Hacc Hxs; simpl.
  - done.
  - inversion_clear Hxs. apply IH; auto.
Qed.

Lemma sqrt_core_nonneg m e :
  0 ≤ m → 0 ≤ (SFsqrt_core_binary prec emax m e).1.1.
Proof.
  intros Hm. unfold SFsqrt_core_binary.
  set (s := e - 2 * _).
  set (m' := match s with Z.pos _ => Z.shiftl m s | 0 => m | Z.neg _ => 0 end).
  assert (0 ≤ m') as Hm'.
  { subst m'. destruct s; try lia. by apply Z.shiftl_nonneg. }
  pose proof (Z.sqrtrem_spec m' Hm') as Hs.
  destruct (Z.sqrtrem m') as [q r]. simpl. lia.
Qed.

Lemma sqrt_rounded m e :
  rounded false (SFsqrt prec emax (S754_finite false m e)).
Proof.
  simpl. pose proof (sqrt_core_nonneg (Z.pos m) e) as H.
  destruct (SFsqrt_core_binary _ _ _ _) as [[mz ez] lz].
  apply binary_round_aux_rounded. simpl in H. lia.
Qed.

End FloatFacts.

(** [math.sqrt] accepts every float whose sign bit is clear. *)
Lemma math_sqrt_sign_clear x :
  Float.sign_clear x = true →
  ∃ r, math_sqrt x = Ok r ∧ Float.sign_clear r = true.
Proof.
  destruct x as [[]|[]| |[] m e]; try done; intros _;
    try (eexists; split; [reflexivity|done]).
  pose proof (FloatFacts.sqrt_rounded m e) as H. unfold math_sqrt.
  rewrite (FloatFacts.rounded_not_nan _ _ H). simpl.
  eexists; split; [reflexivity|]. by apply FloatFacts.rounded_sign_clear.
Qed.

Lemma math_sqrt_nonneg x :
  Float.nonneg x = true →
  ∃ r, math_sqrt x = Ok r ∧ Float.nonneg r = true.
Proof.
  destruct x as [[]|[]| |[] m e]; try done; intros _;
    try (eexists; split; [reflexivity|done]).
  pose proof (FloatFacts.sqrt_rounded m e) as H. unfold math_sqrt.
  rewrite (FloatFacts.rounded_not_nan _ _ H). simpl.
  eexists; split; [reflexivity|]. by apply FloatFacts.rounded_nonneg.
Qed.

(** [0.0 <= r] for every non-negative [r]. *)
Lemma nonneg_leb r : Float.nonneg r = true → Float.leb Float.zero r = true.
Proof. by destruct r as [[]|[]| |[] ? ?]. Qed.




Lemma sum_zeros xs :
  Forall (λ x, x = Float.zero) xs → builtin_sum xs = Float.zero.
Proof.
  intros H. unfold builtin_sum.
  apply (FloatFacts.fold_add_inv (λ x, x = Float.zero)); [|done|done].
  by intros ?? -> ->.
Qed.

(** ** The values the operators compute: algebra *)

Lemma zip_mul_comm xs ys : zip_with Float.mul xs ys = zip_with Float.mul ys xs.
Proof.
  revert ys. induction xs as [|x xs IH]; intros [|y ys]; simpl; try done.
  by rewrite FloatFacts.mul_comm, IH.
Qed.

Lemma dot_comm xs ys : dot xs ys = dot ys xs.
Proof. unfold dot. by rewrite zip_mul_comm. Qed.


Lemma squares_sign_clear ds :
  Forall (λ x, Float.sign_clear x = true) (zip_with Float.mul ds ds).
Proof.
  induction ds as [|d ds IH]; simpl; constructor; [|done].
  apply FloatFacts.sign_clear_sq.
Qed.

Lemma dot_self_sign_clear ds : Float.sign_clear (dot ds ds) = true.
Proof.
  unfold dot, builtin_sum.
  apply (FloatFacts.fold_add_inv (λ x, Float.sign_clear x = true));
    [apply FloatFacts.sign_clear_add|done|apply squares_sign_clear].
Qed.

Lemma squares_nonneg ds :
  Forall (λ x, Float.is_nan x = false) ds →
  Forall (λ x, Float.nonneg x = true) (zip_with Float.mul ds ds).
Proof.
  induction 1 as [|d ds Hd _ IH]; simpl; constructor; [|done].
  by apply FloatFacts.nonneg_sq.
Qed.

Lemma dot_self_nonneg ds :
  Forall (λ x, Float.is_nan x = false) ds →
  Float.nonneg (dot ds ds) = true.
Proof.
  intros H. unfold dot, builtin_sum.
  apply (FloatFacts.fold_add_inv (λ x, Float.nonneg x = true));
    [apply FloatFacts.nonneg_add|done|by apply squares_nonneg].
Qed.



(** ** Running the methods *)

Ltac step H := rewrite (bind_ok _ _ _ _ _ H); cbv beta.

Lemma validate_run {A} (f : Vector → Vector → M A) h a b d1 d2 :
  h !! data a = Some d1 → h !! data b = Some d2 →
  validate_vector f a (IsVector b) h =
    if decide (length d1 = length d2) then f a b h
    else (Raise (ValueError "Vectors must be of same length"%string), h).
Proof.
  intros Ha Hb. unfold validate_vector.
  step (len_ok _ _ _ Ha). step (len_ok _ _ _ Hb).
  destruct (Nat.eqb_spec (length d1) (length d2)); simpl;
    by destruct (decide _).
Qed.

Lemma validate_same {A} (f : Vector → Vector → M A) h a b xs ys :
  holds h a xs → holds h b ys → length xs = length ys →
  validate_vector f a (IsVector b) h = f a b h.
Proof.
  intros Ha Hb Hlen. rewrite (validate_run f _ _ _ _ _ Ha Hb).
  rewrite !length_fmap. by destruct (decide _).
Qed.

Lemma add_body_ok h a b xs ys :
  wf h a xs → holds h b ys → length xs = length ys →
  add_body a b h =
    (Ok {| data := length h |}, h ++ [PyFloat <$> zip_with Float.add xs ys]).
Proof.
  intros [Ha Hne] Hb Hlen. unfold add_body.
  step (elements_ok _ _ _ Ha). step (elements_ok _ _ _ Hb).
  by apply Vector_of_ok, zip_with_nonempty.
Qed.

Lemma sub_body_ok h a b xs ys :
  wf h a xs → holds h b ys → length xs = length ys →
  sub_body a b h =
    (Ok {| data := length h |}, h ++ [PyFloat <$> zip_with Float.sub xs ys]).
Proof.
  intros [Ha Hne] Hb Hlen. unfold sub_body.
  step (elements_ok _ _ _ Ha). step (elements_ok _ _ _ Hb).
  by apply Vector_of_ok, zip_with_nonempty.
Qed.

Lemma matmul_body_ok h a b xs ys :
  holds h a xs → holds h b ys → matmul_body a b h = (Ok (dot xs ys), h).
Proof.
  intros Ha Hb. unfold matmul_body.
  step (elements_ok _ _ _ Ha). by step (elements_ok _ _ _ Hb).
Qed.

Lemma add_ok h a b xs ys :
  wf h a xs → holds h b ys → length xs = length ys →
  Vector___add__ a (IsVector b) h =
    (Ok {| data := length h |}, h ++ [PyFloat <$> zip_with Float.add xs ys]).
Proof.
  intros Ha Hb Hlen. unfold Vector___add__.
  rewrite (validate_same _ _ _ _ _ _ (proj1 Ha) Hb Hlen).
  by apply add_body_ok.
Qed.

Lemma sub_ok h a b xs ys :
  wf h a xs → holds h b ys → length xs = length ys →
  Vector___sub__ a (IsVector b) h =
    (Ok {| data := length h |}, h ++ [PyFloat <$> zip_with Float.sub xs ys]).
Proof.
  intros Ha Hb Hlen. unfold Vector___sub__.
  rewrite (validate_same _ _ _ _ _ _ (proj1 Ha) Hb Hlen).
  by apply sub_body_ok.
Qed.

Lemma matmul_ok h a b xs ys :
  holds h a xs → holds h b ys → length xs = length ys →
  Vector___matmul__ a (IsVector b) h = (Ok (dot xs ys), h).
Proof.
  intros Ha Hb Hlen. unfold Vector___matmul__.
  rewrite (validate_same _ _ _ _ _ _ Ha Hb Hlen).
  by apply matmul_body_ok.
Qed.

Lemma abs_run h v xs :
  holds h v xs → Vector___abs__ v h = (math_sqrt (dot xs xs), h).
Proof.
  intros Hv. unfold Vector___abs__.
  by step (matmul_ok _ _ _ _ _ Hv Hv eq_refl).
Qed.

(** The magnitude is always defined: the sum of squares never has its sign
    bit set, so [math.sqrt] does not raise. *)
Lemma abs_ok h v xs :
  holds h v xs →
  ∃ m, math_sqrt (dot xs xs) = Ok m ∧ Vector___abs__ v h = (Ok m, h).
Proof.
  intros Hv.
  destruct (math_sqrt_sign_clear _ (dot_self_sign_clear xs)) as (m & Hm & _).
  exists m. split; [done|]. by rewrite (abs_run _ _ _ Hv), Hm.
Qed.

Lemma mul_ok h v xs k :
  wf h v xs →
  Vector___mul__ v k h =
    (Ok {| data := length h |},
     h ++ [PyFloat <$> ((λ a, Float.mul a k) <$> xs)]).
Proof.
  intros [Hv Hne]. unfold Vector___mul__. step (elements_ok _ _ _ Hv).
  by apply Vector_of_ok, fmap_nonempty.
Qed.

Lemma neg_ok h v xs :
  wf h v xs →
  Vector___neg__ v h =
    (Ok {| data := length h |}, h ++ [PyFloat <$> (Float.neg <$> xs)]).
Proof.
  intros [Hv Hne]. unfold Vector___neg__. step (elements_ok _ _ _ Hv).
  by apply Vector_of_ok, fmap_nonempty.
Qed.

Lemma list_comp_length {A B} (f : A → outcome B) xs ys :
  list_comp f xs = Ok ys → length ys = length xs.
Proof.
  revert ys. induction xs as [|x xs IH]; intros ys; simpl.
  - by intros [= <-].
  - destruct (f x); simpl; try done.
    destruct (list_comp f xs); simpl; try done.
    intros [= <-]. simpl. by rewrite (IH _ eq_refl).
Qed.

Lemma list_comp_nonempty {A B} (f : A → outcome B) xs ys :
  xs ≠ [] → list_comp f xs = Ok ys → ys ≠ [].
Proof.
  intros Hne Hc. apply list_comp_length in Hc.
  destruct xs, ys; simpl in *; done.
Qed.

Lemma truediv_run h v xs k :
  wf h v xs →
  Vector___truediv__ v k h =
    match list_comp (λ a, float_truediv a k) xs with
    | Ok ys => (Ok {| data := length h |}, h ++ [PyFloat <$> ys])
    | Raise e => (Raise e, h)
    | Stuck => (Stuck, h)
    end.
Proof.
  intros [Hv Hne]. unfold Vector___truediv__. step (elements_ok _ _ _ Hv).
  destruct (list_comp _ xs) as [ys| |] eqn:E.
  - erewrite bind_ok; [|reflexivity]. cbv beta.
    eapply Vector_of_ok, list_comp_nonempty; eauto.
  - by erewrite bind_raise.
  - by erewrite bind_stuck.
Qed.

Lemma normalize_comp_run h v xs0 m :
  holds h v xs0 → math_sqrt (dot xs0 xs0) = Ok m →
  ∀ xs, normalize_comp v xs h = (list_comp (λ a, float_truediv a m) xs, h).
Proof.
  intros Hv Hm. induction xs as [|a xs IH]; simpl; [done|].
  erewrite bind_ok; [|by rewrite (abs_run _ _ _ Hv), Hm]. cbv beta.
  destruct (float_truediv a m) as [q| |] eqn:E; simpl.
  - erewrite bind_ok; [|reflexivity]. cbv beta.
    destruct (list_comp _ xs) as [qs| |] eqn:E'; simpl.
    + by erewrite bind_ok.
    + by erewrite bind_raise.
    + by erewrite bind_stuck.
  - by erewrite bind_raise.
  - by erewrite bind_stuck.
Qed.

Lemma normalize_run h v xs m :
  wf h v xs → math_sqrt (dot xs xs) = Ok m →
  Vector_normalize v h =
    match list_comp (λ a, float_truediv a m) xs with
    | Ok ys => (Ok {| data := length h |}, h ++ [PyFloat <$> ys])
    | Raise e => (Raise e, h)
    | Stuck => (Stuck, h)
    end.
Proof.
  intros [Hv Hne] Hm. unfold Vector_normalize. step (elements_ok _ _ _ Hv).
  pose proof (normalize_comp_run _ _ _ _ Hv Hm xs) as Hc.
  destruct (list_comp _ xs) as [ys| |] eqn:E.
  - step Hc. eapply Vector_of_ok, list_comp_nonempty; eauto.
  - by erewrite bind_raise.
  - by erewrite bind_stuck.
Qed.

Lemma distance_run h a b xs ys :
  wf h a xs → holds h b ys → length xs = length ys →
  Vector_distance a (IsVector b) h =
    (math_sqrt (builtin_sum (sq_diffs xs ys)),
     h ++ [PyFloat <$> zip_with Float.sub xs ys]).
Proof.
  intros Ha Hb Hlen. unfold Vector_distance.
  step (sub_ok _ _ _ _ _ Ha Hb Hlen).
  by rewrite (abs_run _ _ _ (holds_new h _)).
Qed.

(** ** Sanity checks on the examples of the documentation *)

Example add_example :
  Vector___add__ {| data := 0%nat |} (IsVector {| data := 1%nat |}) h_ex
  = (Ok {| data := 4%nat |},
     h_ex ++ [[PyFloat f5; PyFloat (Float.of_Z 7); PyFloat (Float.of_Z 9)]]).
Proof. vm_compute. reflexivity. Qed.

Example abs_example :
  Vector___abs__ {| data := 2%nat |} h_ex = (Ok f5, h_ex).
Proof. vm_compute. reflexivity. Qed.

Example distance_example :
  fst (Vector_distance {| data := 3%nat |} (IsVector {| data := 2%nat |}) h_ex)
  = Ok f5.
Proof. vm_compute. reflexivity. Qed.

(** ** The pair validator *)

(** C1: on vectors of different lengths [add], [subtract] and [dot] all
    raise the length-mismatch [ValueError]; on vectors of equal length the
    validator runs the wrapped function on the same two operands, in the
    same heap, and its result is the wrapped function's result. *)
Theorem validate_vector_contract h a b d1 d2 :
  h !! data a = Some d1 → h !! data b = Some d2 →
  (length d1 ≠ length d2 →
     Vector___add__ a (IsVector b) h = (Raise length_mismatch, h) ∧
     Vector___sub__ a (IsVector b) h = (Raise length_mismatch, h) ∧
     Vector___matmul__ a (IsVector b) h = (Raise length_mismatch, h)) ∧
  (length d1 = length d2 →
     ∀ A (function : Vector → Vector → M A),
       validate_vector function a (IsVector b) h = function a b h).
Proof.
  intros Ha Hb. split.
  - intros Hne. unfold Vector___add__, Vector___sub__, Vector___matmul__.
    rewrite !(validate_run _ _ _ _ _ _ Ha Hb).
    by destruct (decide _).
  - intros Heq A function. rewrite (validate_run _ _ _ _ _ _ Ha Hb).
    by destruct (decide _).
Qed.

Lemma validate_vector_contract_witness :
  Vector___add__ v_a (IsVector v_b) h_ab = (Raise length_mismatch, h_ab) ∧
  validate_vector add_body v_a (IsVector v_a) h_ab = add_body v_a v_a h_ab.
Proof.
  split.
  - apply (validate_vector_contract h_ab v_a v_b _ _ eq_refl eq_refl).
    simpl. lia.
  - apply (validate_vector_contract h_ab v_a v_a _ _ eq_refl eq_refl).
    reflexivity.
Defined.

(** ** Construction, length and indexing *)

(** C2: constructing from an empty list raises the empty-data
    [ValueError]; constructing from a non-empty list of floats succeeds, and
    [len] of the result is the length of the list. *)
Theorem construction h l :
  (h !! l = Some [] → Vector___init__ l h = (Raise empty_data, h)) ∧
  (∀ xs, xs ≠ [] → h !! l = Some (PyFloat <$> xs) →
     Vector___init__ l h = (Ok {| data := l |}, h) ∧
     Vector___len__ {| data := l |} h = (Ok (length xs), h)).
Proof.
  split.
  - intros Hl. by rewrite (init_run _ _ _ Hl).
  - intros xs Hne Hl. split.
    + by rewrite (init_run _ _ _ Hl), post_init_floats.
    + by apply len_holds.
Qed.

Lemma construction_witness :
  Vector___init__ 0%nat [[]] = (Raise empty_data, [[]]) ∧
  Vector___init__ 0%nat h_ab = (Ok v_a, h_ab) ∧
  Vector___len__ v_a h_ab = (Ok 2%nat, h_ab).
Proof.
  split.
  - apply (construction [[]] 0%nat). reflexivity.
  - apply (proj2 (construction h_ab 0%nat) [f1; f2]); [discriminate|reflexivity].
Defined.

Lemma check_elements_non_float d :
  forallb isinstance_float d = false → check_elements d = Raise not_a_float.
Proof.
  induction d as [|x d IH]; simpl; [done|].
  destruct (isinstance_float x); simpl; [exact IH|done].
Qed.

(** C10: a non-empty list with an element that is not a float (an [int]
    or a [bool], for instance) makes the construction raise [TypeError],
    with the message "Data must be a float or int". *)
Theorem construction_rejects_non_float h l d :
  h !! l = Some d → d ≠ [] →
  forallb isinstance_float d = false →
  Vector___init__ l h = (Raise not_a_float, h)
  ∧ (∀ n, isinstance_float (PyInt n) = false)
  ∧ (∀ b, isinstance_float (PyBool b) = false).
Proof.
  intros Hl Hne Hex. split; [|done].
  rewrite (init_run _ _ _ Hl). unfold Vector___post_init__.
  destruct d as [|x d]; [done|]. by rewrite check_elements_non_float.
Qed.

Lemma construction_rejects_non_float_witness :
  Vector___init__ 0%nat [[PyFloat f1; PyInt 2; PyBool true]]
  = (Raise not_a_float, [[PyFloat f1; PyInt 2; PyBool true]]).
Proof.
  apply (construction_rejects_non_float _ 0%nat [PyFloat f1; PyInt 2; PyBool true]).
  - reflexivity.
  - discriminate.
  - reflexivity.
Defined.

Lemma getitem_run h v d i :
  h !! data v = Some d →
  Vector___getitem__ v i h = (list___getitem__ d i, h).
Proof.
  intros Hv. unfold Vector___getitem__. by step (load_ok _ _ _ Hv).
Qed.

Lemma list_getitem_in_range d i :
  0 ≤ i < Z.of_nat (length d) →
  ∃ x, d !! Z.to_nat i = Some x ∧ list___getitem__ d i = Ok x.
Proof.
  intros Hi. unfold list___getitem__.
  destruct (Z.ltb_spec i 0) as [?|_]; [lia|].
  destruct (Z.ltb_spec i 0) as [?|_]; [lia|].
  destruct (lookup_lt_is_Some_2 d (Z.to_nat i)) as [x Hx]; [lia|].
  exists x. by rewrite Hx.
Qed.

Lemma list_getitem_negative d i :
  - Z.of_nat (length d) ≤ i ≤ -1 →
  ∃ x, d !! Z.to_nat (Z.of_nat (length d) + i) = Some x
       ∧ list___getitem__ d i = Ok x.
Proof.
  intros Hi. unfold list___getitem__.
  destruct (Z.ltb_spec i 0) as [_|?]; [|lia].
  destruct (Z.ltb_spec (i + Z.of_nat (length d)) 0) as [?|_]; [lia|].
  rewrite (Z.add_comm i).
  destruct (lookup_lt_is_Some_2 d (Z.to_nat (Z.of_nat (length d) + i)))
    as [x Hx]; [lia|].
  exists x. by rewrite Hx.
Qed.

Lemma list_getitem_out_of_range d i :
  Z.of_nat (length d) ≤ i ∨ i < - Z.of_nat (length d) →
  list___getitem__ d i = Raise IndexError.
Proof.
  intros Hi. unfold list___getitem__.
  destruct (Z.ltb_spec i 0) as [Hneg|Hpos].
  - destruct (Z.ltb_spec (i + Z.of_nat (length d)) 0) as [_|?]; [done|lia].
  - destruct (Z.ltb_spec i 0) as [?|_]; [lia|].
    rewrite lookup_ge_None_2; [done|lia].
Qed.

Lemma init_ok_inv h l d v h' :
  h !! l = Some d → Vector___init__ l h = (Ok v, h') →
  v = {| data := l |} ∧ h' = h.
Proof.
  intros Hl. rewrite (init_run _ _ _ Hl).
  destruct (Vector___post_init__ d); by intros [= <- <-].
Qed.

(** C5, as the code has it: for a vector [v] constructed from the list [d],
    [v[i]] is [d[i]] for [0 <= i < len(v)], and [v[index]] raises
    [IndexError] for every [index >= len(v)] -- [v[len(v)]] in particular --
    and for every [index < -len(v)]. *)
Theorem indexing h l d v h' :
  h !! l = Some d → Vector___init__ l h = (Ok v, h') →
  (∀ i, 0 ≤ i < Z.of_nat (length d) →
        ∃ x, d !! Z.to_nat i = Some x ∧ Vector___getitem__ v i h' = (Ok x, h'))
  ∧ (∀ index, Z.of_nat (length d) ≤ index ∨ index < - Z.of_nat (length d) →
        Vector___getitem__ v index h' = (Raise IndexError, h'))
  ∧ Vector___getitem__ v (Z.of_nat (length d)) h' = (Raise IndexError, h').
Proof.
  intros Hl Hinit. destruct (init_ok_inv _ _ _ _ _ Hl Hinit) as [-> ->].
  split; [|split].
  - intros i Hi. destruct (list_getitem_in_range d i Hi) as (x & Hx & Hg).
    exists x. split; [done|]. by rewrite (getitem_run _ {| data := l |} d _ Hl), Hg.
  - intros index Hi.
    by rewrite (getitem_run _ {| data := l |} d _ Hl), list_getitem_out_of_range.
  - rewrite (getitem_run _ {| data := l |} d _ Hl), list_getitem_out_of_range; [done|lia].
Qed.

Lemma indexing_witness :
  Vector___getitem__ v_a 1 h_ab = (Ok (PyFloat f2), h_ab) ∧
  Vector___getitem__ v_a (-3) h_ab = (Raise IndexError, h_ab) ∧
  Vector___getitem__ v_a 2 h_ab = (Raise IndexError, h_ab).
Proof.
  destruct (indexing h_ab 0%nat [PyFloat f1; PyFloat f2] v_a h_ab
              eq_refl eq_refl) as (Hin & Hout & Hlen).
  split; [|split; [|exact Hlen]].
  - destruct (Hin 1) as (x & Hx & Hg); [simpl; lia|].
    injection Hx as <-. exact Hg.
  - apply Hout. simpl. lia.
Defined.

(** C5 fails as stated: the index [-1] lies outside [[0, len(v))], yet
    [v[-1]] returns the last element instead of raising [IndexError]. *)
Lemma indexing_counterexample :
  Vector___init__ 0%nat h_ab = (Ok v_a, h_ab) ∧
  Vector___len__ v_a h_ab = (Ok 2%nat, h_ab) ∧
  ¬ (0 ≤ -1 < 2) ∧
  Vector___getitem__ v_a (-1) h_ab = (Ok (PyFloat f2), h_ab) ∧
  fst (Vector___getitem__ v_a (-1) h_ab) ≠ Raise IndexError.
Proof. repeat split; [lia|discriminate]. Qed.

(** C9: for a vector of length [n] and [-n <= i <= -1], [v[i]] succeeds and
    returns the element at position [n + i]. *)
Theorem negative_indexing h v d i :
  h !! data v = Some d →
  - Z.of_nat (length d) ≤ i ≤ -1 →
  ∃ x, d !! Z.to_nat (Z.of_nat (length d) + i) = Some x
       ∧ Vector___getitem__ v i h = (Ok x, h).
Proof.
  intros Hv Hi. destruct (list_getitem_negative d i Hi) as (x & Hx & Hg).
  exists x. split; [done|]. by rewrite (getitem_run _ _ d _ Hv), Hg.
Qed.

Lemma negative_indexing_witness :
  Vector___getitem__ v_b (-3) h_ab = (Ok (PyFloat f1), h_ab).
Proof.
  destruct (negative_indexing h_ab v_b [PyFloat f1; PyFloat f2; PyFloat f3] (-3)
              eq_refl) as (x & Hx & Hg); [simpl; lia|].
  injection Hx as <-. exact Hg.
Defined.

(** ** Scalar division and normalisation *)

Lemma truediv_comp_zero xs k :
  xs ≠ [] → Float.eqb k Float.zero = true →
  list_comp (λ a, float_truediv a k) xs = Raise ZeroDivisionError.
Proof.
  destruct xs as [|x xs]; [done|]. intros _ Hk. simpl.
  unfold float_truediv. by rewrite Hk.
Qed.

Lemma truediv_comp_nonzero xs k :
  Float.eqb k Float.zero = false →
  list_comp (λ a, float_truediv a k) xs = Ok (quotients xs k).
Proof.
  intros Hk. induction xs as [|x xs IH]; simpl; [done|].
  unfold float_truediv at 1. rewrite Hk. simpl. by rewrite IH.
Qed.

Lemma truediv_outcome h v xs scalar :
  wf h v xs →
  Vector___truediv__ v scalar h =
    if Float.eqb scalar Float.zero then (Raise ZeroDivisionError, h)
    else (Ok {| data := length h |}, h ++ [PyFloat <$> quotients xs scalar]).
Proof.
  intros Hv. rewrite (truediv_run _ _ _ _ Hv).
  destruct (Float.eqb scalar Float.zero) eqn:Hk.
  - by rewrite (truediv_comp_zero _ _ (proj2 Hv) Hk).
  - by rewrite (truediv_comp_nonzero _ _ Hk).
Qed.

Lemma normalize_outcome h v xs :
  wf h v xs →
  ∃ m, Vector___abs__ v h = (Ok m, h) ∧
       Vector_normalize v h =
         if Float.eqb m Float.zero then (Raise ZeroDivisionError, h)
         else (Ok {| data := length h |}, h ++ [PyFloat <$> quotients xs m]).
Proof.
  intros Hv. destruct (abs_ok _ _ _ (proj1 Hv)) as (m & Hm & Habs).
  exists m. split; [done|]. rewrite (normalize_run _ _ _ _ Hv Hm).
  destruct (Float.eqb m Float.zero) eqn:Hk.
  - by rewrite (truediv_comp_zero _ _ (proj2 Hv) Hk).
  - by rewrite (truediv_comp_nonzero _ _ Hk).
Qed.

(** C3: for every vector, dividing by a scalar equal to zero raises
    [ZeroDivisionError], and so does normalising when the magnitude is
    zero. *)
Theorem division_by_zero h v xs :
  wf h v xs →
  (∀ scalar, Float.eqb scalar Float.zero = true →
     Vector___truediv__ v scalar h = (Raise ZeroDivisionError, h)) ∧
  (∀ m, Vector___abs__ v h = (Ok m, h) → Float.eqb m Float.zero = true →
     Vector_normalize v h = (Raise ZeroDivisionError, h)).
Proof.
  intros Hv. split.
  - intros scalar Hk. by rewrite (truediv_outcome _ _ _ _ Hv), Hk.
  - intros m Habs Hk.
    destruct (normalize_outcome _ _ _ Hv) as (m' & Habs' & ->).
    rewrite Habs in Habs'. injection Habs' as <-. by rewrite Hk.
Qed.

Lemma division_by_zero_witness :
  Vector___truediv__ v_a (Float.neg Float.zero) h_ab
    = (Raise ZeroDivisionError, h_ab) ∧
  Vector_normalize v_zero h_ex = (Raise ZeroDivisionError, h_ex).
Proof.
  assert (wf h_ab v_a [f1; f2]) as Ha by (split; [reflexivity|discriminate]).
  assert (wf h_ex v_zero [Float.zero; Float.zero]) as Hz
    by (split; [reflexivity|discriminate]).
  split.
  - exact (proj1 (division_by_zero _ _ _ Ha) (Float.neg Float.zero) eq_refl).
  - exact (proj2 (division_by_zero _ _ _ Hz) Float.zero eq_refl eq_refl).
Defined.

(** C4 fails as stated: dividing by [0.0], and normalising a vector of
    magnitude [0.0], raise [ZeroDivisionError]; no vector of infinities or
    NaNs comes back. *)
Lemma silent_division_counterexample :
  Vector___truediv__ v_a Float.zero h_ab = (Raise ZeroDivisionError, h_ab) ∧
  Vector___abs__ v_zero h_ex = (Ok Float.zero, h_ex) ∧
  Vector_normalize v_zero h_ex = (Raise ZeroDivisionError, h_ex) ∧
  (∀ v', fst (Vector___truediv__ v_a Float.zero h_ab) ≠ Ok v') ∧
  (∀ v', fst (Vector_normalize v_zero h_ex) ≠ Ok v').
Proof.
  assert (Vector___truediv__ v_a Float.zero h_ab = (Raise ZeroDivisionError, h_ab))
    as Hd by (vm_compute; reflexivity).
  assert (Vector_normalize v_zero h_ex = (Raise ZeroDivisionError, h_ex))
    as Hn by (vm_compute; reflexivity).
  split; [exact Hd|]. split; [vm_compute; reflexivity|]. split; [exact Hn|].
  rewrite Hd, Hn. split; discriminate.
Qed.

(** C4, as the code has it: the division is not guarded by the class; the
    float division itself raises [ZeroDivisionError] when the scalar, or the
    magnitude, equals zero, and otherwise the new vector holds the IEEE-754
    quotients. *)
Theorem division_outcome h v xs :
  wf h v xs →
  (∀ scalar,
     Vector___truediv__ v scalar h =
       if Float.eqb scalar Float.zero then (Raise ZeroDivisionError, h)
       else (Ok {| data := length h |},
             h ++ [PyFloat <$> quotients xs scalar])) ∧
  (∃ m, Vector___abs__ v h = (Ok m, h) ∧
        Vector_normalize v h =
          if Float.eqb m Float.zero then (Raise ZeroDivisionError, h)
          else (Ok {| data := length h |}, h ++ [PyFloat <$> quotients xs m])).
Proof.
  intros Hv. split.
  - intros scalar. by apply truediv_outcome.
  - by apply normalize_outcome.
Qed.

Lemma division_outcome_witness :
  Vector___truediv__ v_a f2 h_ab =
    (Ok {| data := 2%nat |},
     h_ab ++ [[PyFloat (Float.ldexp f1 (-1)); PyFloat f1]]).
Proof.
  assert (wf h_ab v_a [f1; f2]) as Ha by (split; [reflexivity|discriminate]).
  exact (proj1 (division_outcome _ _ _ Ha) f2).
Defined.

(** ** Dot product, scaling and distance *)

Lemma eqb_refl r : Float.is_nan r = false → Float.eqb r r = true.
Proof.
  destruct r as [s|[]| |[] m e]; try done; intros _;
    unfold Float.eqb, SFeqb; simpl;
    by rewrite Z.compare_refl, Pos.compare_cont_refl.
Qed.



(** C7, as the code has it: for vectors [a] and [b] of equal length,
    [dot(a, b)] and [dot(b, a)] are both NaN or are the same float, so that
    [dot(a, b) == dot(b, a)] holds whenever the result is not NaN; and
    multiplying by a scalar on the left runs exactly the multiplication by
    the scalar on the right. *)
Theorem commutativity h :
  (∀ a b xs ys,
     holds h a xs → holds h b ys → length xs = length ys →
     ∃ r1 r2, Vector___matmul__ a (IsVector b) h = (Ok r1, h)
              ∧ Vector___matmul__ b (IsVector a) h = (Ok r2, h)
              ∧ Float.is_nan r1 = Float.is_nan r2
              ∧ (Float.is_nan r1 = false →
                 r1 = r2 ∧ Float.eqb r1 r2 = true))
  ∧ (∀ v k, Vector___rmul__ v k h = Vector___mul__ v k h).
Proof.
  split; [|done]. intros a b xs ys Ha Hb Hlen.
  exists (dot xs ys), (dot ys xs).
  split; [by apply matmul_ok|]. split; [by apply matmul_ok|].
  rewrite (dot_comm ys xs). split; [done|].
  intros Hnn. split; [done|]. by apply eqb_refl.
Qed.

Lemma commutativity_witness :
  (∃ r1 r2,
     Vector___matmul__ {| data := 0%nat |} (IsVector {| data := 1%nat |}) h_ex
       = (Ok r1, h_ex)
     ∧ Vector___matmul__ {| data := 1%nat |} (IsVector {| data := 0%nat |}) h_ex
       = (Ok r2, h_ex)
     ∧ Float.is_nan r1 = Float.is_nan r2
     ∧ (Float.is_nan r1 = false → r1 = r2 ∧ Float.eqb r1 r2 = true))
  ∧ Vector___rmul__ v_a f3 h_ab = Vector___mul__ v_a f3 h_ab.
Proof.
  split.
  - exact (proj1 (commutativity h_ex) {| data := 0%nat |} {| data := 1%nat |}
             [f1; f2; f3] [Float.of_Z 4; f5; Float.of_Z 6]
             eq_refl eq_refl eq_refl).
  - exact (proj2 (commutativity h_ab) v_a f3).
Defined.

(** C7 fails as stated: for the finite vectors [a = (2**600, -2**600)] and
    [b = (2**600, 2**600)] the products overflow to [inf] and [-inf], both
    dot products are NaN, and [dot(a, b) == dot(b, a)] is [False]. *)
Lemma commutativity_counterexample :
  Vector___init__ 0%nat h_big = (Ok v_big_a, h_big) ∧
  Vector___init__ 1%nat h_big = (Ok v_big_b, h_big) ∧
  all_finite [big; Float.neg big] = true ∧
  all_finite [big; big] = true ∧
  Float.valid big = true ∧
  ∃ r1 r2,
    Vector___matmul__ v_big_a (IsVector v_big_b) h_big = (Ok r1, h_big)
    ∧ Vector___matmul__ v_big_b (IsVector v_big_a) h_big = (Ok r2, h_big)
    ∧ Float.eqb r1 r2 = false.
Proof.
  repeat split; try (vm_compute; reflexivity).
  exists Float.nan, Float.nan. repeat split; vm_compute; reflexivity.
Qed.

(** A NaN dot product is the same NaN in both orders, and Python's [==]
    reports any NaN unequal to itself: [Vector([inf]) @ Vector([0.0])]. *)
Example matmul_nan :
  Vector___matmul__ {| data := 0%nat |} (IsVector {| data := 1%nat |}) h_inf
    = (Ok Float.nan, h_inf)
  ∧ Vector___matmul__ {| data := 1%nat |} (IsVector {| data := 0%nat |}) h_inf
    = (Ok Float.nan, h_inf)
  ∧ Float.eqb Float.nan Float.nan = false.
Proof. repeat split; vm_compute; reflexivity. Qed.

(** With an infinite element the distance of a vector to itself is NaN:
    the finiteness of the elements is needed below. *)
Example distance_inf :
  fst (Vector_distance {| data := 0%nat |} (IsVector {| data := 0%nat |}) h_inf)
  = Ok Float.nan.
Proof. vm_compute. reflexivity. Qed.







(** ** Storage is never mutated *)

Lemma extends_pure {A} (o : outcome A) : extends (λ h, (o, h)).
Proof. intros h. exists []. simpl. by rewrite app_nil_r. Qed.

Lemma extends_load l : extends (load l).
Proof.
  intros h. exists []. unfold load. rewrite app_nil_r.
  by destruct (h !! l).
Qed.

Lemma extends_new_list d : extends (new_list d).
Proof. intros h. by exists [d]. Qed.

Lemma extends_bind {A B} (m : M A) (k : A → M B) :
  extends m → (∀ a, extends (k a)) → extends (m ≫= k).
Proof.
  intros Hm Hk h. destruct (Hm h) as [k1 H1]. unmonad.
  destruct (m h) as [[a| |] h1]; simpl in *; subst h1; [|by exists k1..].
  destruct (Hk a (h ++ k1)) as [k2 H2]. exists (k1 ++ k2).
  by rewrite H2, app_assoc.
Qed.

Create HintDb frame.
#[local] Hint Resolve extends_load extends_new_list : frame.
#[local] Hint Extern 1 (extends (mret _)) => apply extends_pure : frame.
#[local] Hint Extern 1 (extends (ret _)) => apply extends_pure : frame.
#[local] Hint Extern 1 (extends (raise _)) => apply extends_pure : frame.
#[local] Hint Extern 1 (extends (lift _)) => apply extends_pure : frame.
#[local] Hint Extern 1 (extends stuck) => apply extends_pure : frame.
#[local] Hint Extern 2 (extends (_ ≫= _)) =>
  apply extends_bind; [|intros ?] : frame.

Lemma extends_init l : extends (Vector___init__ l).
Proof. unfold Vector___init__. auto with frame. Qed.

Lemma extends_elements v : extends (elements v).
Proof.
  unfold elements. apply extends_bind; [auto with frame|].
  intros d. destruct (as_floats d); auto with frame.
Qed.

Lemma extends_Vector_of ys : extends (Vector_of ys).
Proof. unfold Vector_of. auto using extends_init with frame. Qed.

Lemma extends_len v : extends (Vector___len__ v).
Proof. unfold Vector___len__. auto with frame. Qed.

#[local] Hint Resolve extends_init extends_elements extends_Vector_of
  extends_len : frame.

Lemma extends_validate {A} (f : Vector → Vector → M A) a o :
  (∀ x y, extends (f x y)) → extends (validate_vector f a o).
Proof.
  intros Hf. unfold validate_vector. destruct o as [b|o]; [|auto with frame].
  apply extends_bind; [auto with frame|]. intros n1.
  apply extends_bind; [auto with frame|]. intros n2.
  destruct (negb _); auto with frame.
Qed.

Lemma extends_neg v : extends (Vector___neg__ v).
Proof. unfold Vector___neg__. auto with frame. Qed.

Lemma extends_getitem v i : extends (Vector___getitem__ v i).
Proof. unfold Vector___getitem__. auto with frame. Qed.

Lemma extends_add v o : extends (Vector___add__ v o).
Proof.
  apply extends_validate. intros x y. unfold add_body. auto 6 with frame.
Qed.

Lemma extends_sub v o : extends (Vector___sub__ v o).
Proof.
  apply extends_validate. intros x y. unfold sub_body. auto 6 with frame.
Qed.

Lemma extends_matmul v o : extends (Vector___matmul__ v o).
Proof.
  apply extends_validate. intros x y. unfold matmul_body. auto 6 with frame.
Qed.

Lemma extends_mul v k : extends (Vector___mul__ v k).
Proof. unfold Vector___mul__. auto with frame. Qed.

Lemma extends_truediv v k : extends (Vector___truediv__ v k).
Proof. unfold Vector___truediv__. auto 6 with frame. Qed.

Lemma extends_abs v : extends (Vector___abs__ v).
Proof. unfold Vector___abs__. auto using extends_matmul with frame. Qed.

Lemma extends_normalize_comp v xs : extends (normalize_comp v xs).
Proof.
  induction xs as [|a xs IH]; simpl; [auto with frame|].
  apply extends_bind; [apply extends_abs|]. intros m.
  apply extends_bind; [auto with frame|]. intros q.
  apply extends_bind; [exact IH|]. intros qs. auto with frame.
Qed.

Lemma extends_normalize v : extends (Vector_normalize v).
Proof.
  unfold Vector_normalize. auto 6 using extends_normalize_comp with frame.
Qed.

Lemma extends_distance v o : extends (Vector_distance v o).
Proof.
  unfold Vector_distance. auto using extends_sub, extends_abs with frame.
Qed.

Lemma extends_returning {A} (inj : A → value) (m : M A) :
  extends m → extends (returning inj m).
Proof. intros Hm. unfold returning. auto with frame. Qed.

Lemma extends_perform c : extends (perform c).
Proof.
  destruct c; simpl; apply extends_returning;
    auto using extends_neg, extends_len, extends_getitem, extends_add,
      extends_sub, extends_mul, extends_truediv, extends_matmul, extends_abs,
      extends_normalize, extends_distance.
Qed.

Lemma fresh_Vector_of ys : fresh (Vector_of ys).
Proof.
  intros h v h'. unfold Vector_of.
  erewrite bind_ok; [|reflexivity]. cbv beta.
  rewrite (init_run _ _ (PyFloat <$> ys));
    [|by rewrite lookup_app_r, Nat.sub_diag].
  destruct (Vector___post_init__ _); intros [= <- <-].
  rewrite length_app. simpl. lia.
Qed.

Lemma fresh_bind {A} (m : M A) (k : A → M Vector) :
  extends m → (∀ a, fresh (k a)) → fresh (m ≫= k).
Proof.
  intros Hm Hk h v h'. destruct (Hm h) as [k1 H1]. unmonad.
  destruct (m h) as [[a| |] h1]; simpl in *; subst h1; [|done..].
  intros Hr. apply Hk in Hr. rewrite length_app in Hr. lia.
Qed.

Lemma fresh_raise e : fresh (raise e).
Proof. by intros h v h'. Qed.

Lemma fresh_validate (f : Vector → Vector → M Vector) a o :
  (∀ x y, fresh (f x y)) → fresh (validate_vector f a o).
Proof.
  intros Hf. unfold validate_vector. destruct o as [b|o]; [|apply fresh_raise].
  apply fresh_bind; [auto with frame|]. intros n1.
  apply fresh_bind; [auto with frame|]. intros n2.
  destruct (negb _); [apply fresh_raise|apply Hf].
Qed.

Lemma fresh_elements_then v (k : list float → M Vector) :
  (∀ xs, fresh (k xs)) → fresh (elements v ≫= k).
Proof. intros Hk. apply fresh_bind; [auto with frame|done]. Qed.

(** Every method returning a vector returns one whose list is new. *)
Lemma fresh_methods :
  (∀ v, fresh (Vector___neg__ v)) ∧
  (∀ v o, fresh (Vector___add__ v o)) ∧
  (∀ v o, fresh (Vector___sub__ v o)) ∧
  (∀ v k, fresh (Vector___mul__ v k)) ∧
  (∀ v k, fresh (Vector___truediv__ v k)) ∧
  (∀ v, fresh (Vector_normalize v)).
Proof.
  repeat apply conj; intros.
  - apply fresh_elements_then. intros. apply fresh_Vector_of.
  - apply fresh_validate. intros x y. unfold add_body.
    do 2 (apply fresh_elements_then; intros). apply fresh_Vector_of.
  - apply fresh_validate. intros x y. unfold sub_body.
    do 2 (apply fresh_elements_then; intros). apply fresh_Vector_of.
  - apply fresh_elements_then. intros. apply fresh_Vector_of.
  - apply fresh_elements_then. intros.
    apply fresh_bind; [auto with frame|]. intros. apply fresh_Vector_of.
  - apply fresh_elements_then. intros.
    apply fresh_bind; [apply extends_normalize_comp|].
    intros. apply fresh_Vector_of.
Qed.

Lemma returning_ok {A} (inj : A → value) (m : M A) h w h' :
  returning inj m h = (Ok w, h') → ∃ a, m h = (Ok a, h') ∧ w = inj a.
Proof.
  unfold returning. unmonad. destruct (m h) as [[a| |] h1]; try done.
  intros [= <- <-]. by exists a.
Qed.

Lemma returning_raise {A} (inj : A → value) (m : M A) h e h' :
  returning inj m h = (Raise e, h') → m h = (Raise e, h').
Proof.
  unfold returning. unmonad. destruct (m h) as [[a| |] h1]; try done.
  by intros [= <- <-].
Qed.

Lemma fresh_perform c h v h' :
  perform c h = (Ok (VVector v), h') → (length h ≤ data v < length h')%nat.
Proof.
  destruct fresh_methods as (Hneg & Hadd & Hsub & Hmul & Hdiv & Hnorm).
  destruct c; simpl; intros Hr; apply returning_ok in Hr as (r & Hr & E);
    try discriminate E; injection E as <-; revert Hr.
  - apply Hneg.
  - apply Hadd.
  - apply Hsub.
  - apply Hmul.
  - apply Hmul.
  - apply Hdiv.
  - apply Hnorm.
Qed.

Lemma validate_raise {A} (f : Vector → Vector → M A) h a o e h' :
  constructed h a → operand_ok h o →
  (∀ b xs ys, wf h a xs → wf h b ys → length xs = length ys →
              f a b h = (Raise e, h') → h' = h) →
  validate_vector f a o h = (Raise e, h') → h' = h.
Proof.
  intros [xs Ha] Ho Hf. destruct o as [b|o]; [|by intros [= _ <-]].
  - destruct Ho as [ys Hb].
    rewrite (validate_run f _ _ _ _ _ (proj1 Ha) (proj1 Hb)).
    rewrite !length_fmap. destruct (decide _) as [Hlen|_].
    + by apply (Hf b xs ys).
    + by intros [= _ <-].
Qed.

Lemma distance_raise h a o e h' :
  constructed h a → operand_ok h o →
  Vector_distance a o h = (Raise e, h') → h' = h.
Proof.
  intros Ha Ho. unfold Vector_distance, Vector___sub__. unmonad.
  destruct (validate_vector sub_body a o h) as [[d| |] h1] eqn:E.
  - destruct Ha as [xs Ha]. destruct o as [b|o]; [|done].
    destruct Ho as [ys Hb]. revert E.
    rewrite (validate_run _ _ _ _ _ _ (proj1 Ha) (proj1 Hb)).
    rewrite !length_fmap. destruct (decide _) as [Hlen|_]; [|done].
    rewrite (sub_body_ok _ _ _ _ _ Ha (proj1 Hb) Hlen). intros [= <- <-].
    destruct (abs_ok _ _ _ (holds_new h (zip_with Float.sub xs ys)))
      as (m & _ & ->).
    done.
  - intros [= <- <-]. revert E. apply validate_raise; [done..|].
    intros b xs ys Hwa Hwb Hlen.
    by rewrite (sub_body_ok _ _ _ _ _ Hwa (proj1 Hwb) Hlen).
  - done.
Qed.

Lemma builds_Vector_of ys : builds (Vector_of ys).
Proof.
  intros h v h'. unfold Vector_of.
  erewrite bind_ok; [|reflexivity]. cbv beta. apply init_wf.
Qed.

Lemma builds_bind {A} (m : M A) (k : A → M Vector) :
  (∀ a, builds (k a)) → builds (m ≫= k).
Proof.
  intros Hk h v h'. unmonad.
  destruct (m h) as [[a| |] h1]; [apply Hk|done..].
Qed.

Lemma builds_validate (f : Vector → Vector → M Vector) a o :
  (∀ x y, builds (f x y)) → builds (validate_vector f a o).
Proof.
  intros Hf. unfold validate_vector. destruct o as [b|o]; [|done].
  do 2 (apply builds_bind; intros ?).
  destruct (negb _); [done|apply Hf].
Qed.

Ltac builds_steps :=
  repeat (lazymatch goal with
          | |- builds (_ ≫= _) => apply builds_bind; intros ?
          end);
  apply builds_Vector_of.

Lemma builds_methods :
  (∀ v, builds (Vector___neg__ v)) ∧
  (∀ v o, builds (Vector___add__ v o)) ∧
  (∀ v o, builds (Vector___sub__ v o)) ∧
  (∀ v k, builds (Vector___mul__ v k)) ∧
  (∀ v k, builds (Vector___truediv__ v k)) ∧
  (∀ v, builds (Vector_normalize v)).
Proof.
  repeat apply conj; intros.
  - unfold Vector___neg__. builds_steps.
  - apply builds_validate. intros. unfold add_body. builds_steps.
  - apply builds_validate. intros. unfold sub_body. builds_steps.
  - unfold Vector___mul__. builds_steps.
  - unfold Vector___truediv__. builds_steps.
  - unfold Vector_normalize. builds_steps.
Qed.

(** A vector returned by a call satisfies the class invariant, and the
    vectors that satisfied it before the call still do. *)
Lemma invariant_kept c h :
  (∀ v, fst (perform c h) = Ok (VVector v) →
        constructed (snd (perform c h)) v)
  ∧ (∀ v, constructed h v → constructed (snd (perform c h)) v).
Proof.
  split.
  - destruct builds_methods as (Hneg & Hadd & Hsub & Hmul & Hdiv & Hnorm).
    intros v Hv. destruct (perform c h) as [r h'] eqn:Hr. simpl in *. subst r.
    destruct c; simpl in Hr; apply returning_ok in Hr as (r & Hr & E);
      try discriminate E; injection E as <-; revert Hr.
    + apply Hneg.
    + apply Hadd.
    + apply Hsub.
    + apply Hmul.
    + apply Hmul.
    + apply Hdiv.
    + apply Hnorm.
  - intros v [xs Hv]. destruct (extends_perform c h) as [k ->].
    exists xs. by apply wf_app.
Qed.

(** With constructed operands, a call that raises leaves the heap as it
    was. *)
Lemma atomic_failure c h e h' :
  operands_ok h c → perform c h = (Raise e, h') → h' = h.
Proof.
  destruct c; simpl; intros Hok Hr; apply returning_raise in Hr; revert Hr.
  - destruct Hok as [xs Hv]. by rewrite (neg_ok _ _ _ Hv).
  - destruct Hok as [xs Hv]. by rewrite (len_holds _ _ _ (proj1 Hv)).
  - destruct Hok as [xs Hv]. rewrite (getitem_run _ _ _ _ (proj1 Hv)).
    by intros [= _ <-].
  - destruct Hok as [Ha Ho]. apply validate_raise; [done..|].
    intros b xs ys Hwa Hwb Hlen.
    by rewrite (add_body_ok _ _ _ _ _ Hwa (proj1 Hwb) Hlen).
  - destruct Hok as [Ha Ho]. apply validate_raise; [done..|].
    intros b xs ys Hwa Hwb Hlen.
    by rewrite (sub_body_ok _ _ _ _ _ Hwa (proj1 Hwb) Hlen).
  - destruct Hok as [xs Hv]. by rewrite (mul_ok _ _ _ _ Hv).
  - destruct Hok as [xs Hv]. unfold Vector___rmul__.
    by rewrite (mul_ok _ _ _ _ Hv).
  - destruct Hok as [xs Hv]. rewrite (truediv_outcome _ _ _ _ Hv).
    destruct (Float.eqb _ _); [by intros [= _ <-]|done].
  - destruct Hok as [Ha Ho]. apply validate_raise; [done..|].
    intros b xs ys Hwa Hwb Hlen.
    by rewrite (matmul_body_ok _ _ _ _ _ (proj1 Hwa) (proj1 Hwb)).
  - destruct Hok as [xs Hv].
    by destruct (abs_ok _ _ _ (proj1 Hv)) as (m & _ & ->).
  - destruct Hok as [xs Hv].
    destruct (normalize_outcome _ _ _ Hv) as (m & _ & ->).
    destruct (Float.eqb _ _); [by intros [= _ <-]|done].
  - destruct Hok as [Ha Ho]. by apply distance_raise.
Qed.

(** C8: no call mutates existing storage.  The heap after a call is the heap
    before it followed by newly allocated lists, so every list that existed
    keeps its contents, whether the call succeeds or raises; a vector that is
    returned refers to a list allocated by the call; and a call on
    constructed operands that raises leaves the heap exactly as it was. *)
Theorem no_mutation c h :
  (∃ k, snd (perform c h) = h ++ k)
  ∧ (∀ l d, h !! l = Some d → snd (perform c h) !! l = Some d)
  ∧ (∀ v, fst (perform c h) = Ok (VVector v) →
          (length h ≤ data v < length (snd (perform c h)))%nat)
  ∧ (operands_ok h c →
     ∀ e, fst (perform c h) = Raise e → snd (perform c h) = h).
Proof.
  destruct (extends_perform c h) as [k Hk]. repeat apply conj.
  - by exists k.
  - intros l d Hl. rewrite Hk. by apply lookup_app_l_Some.
  - intros v Hv. apply (fresh_perform c).
    rewrite <- Hv. by destruct (perform c h).
  - intros Hok e He. apply (atomic_failure c h e); [done|].
    rewrite <- He. by destruct (perform c h).
Qed.

Lemma no_mutation_witness :
  snd (perform (Add v_a (IsVector v_b)) h_ab) = h_ab ∧
  snd (perform (Neg v_a) h_ab) !! 0%nat = Some [PyFloat f1; PyFloat f2] ∧
  (length h_ab ≤ 2 < length (snd (perform (Neg v_a) h_ab)))%nat.
Proof.
  assert (constructed h_ab v_a) as Ha
    by (exists [f1; f2]; split; [reflexivity|discriminate]).
  assert (constructed h_ab v_b) as Hb
    by (exists [f1; f2; f3]; split; [reflexivity|discriminate]).
  split; [|split].
  - exact (proj2 (proj2 (proj2 (no_mutation (Add v_a (IsVector v_b)) h_ab)))
             (conj Ha Hb) length_mismatch eq_refl).
  - exact (proj1 (proj2 (no_mutation (Neg v_a) h_ab)) 0%nat _ eq_refl).
  - exact (proj1 (proj2 (proj2 (no_mutation (Neg v_a) h_ab)))
             {| data := 2%nat |} eq_refl).
Defined.

(** ** Further facts about float arithmetic *)

Lemma float_add_comm x y : Float.add x y = Float.add y x.
Proof.
  unfold Float.add.
  destruct x as [sx|sx| |sx mx ex], y as [sy|sy| |sy my ey]; simpl;
    try done; try (by destruct sx, sy).
  by rewrite (Z.min_comm ey ex), Z.add_comm.
Qed.

Lemma float_sub_as_add x y : Float.sub x y = Float.add x (Float.neg y).
Proof.
  unfold Float.sub, Float.add, Float.neg.
  destruct x as [sx|sx| |sx mx ex], y as [sy|sy| |sy my ey]; simpl;
    try done; by destruct sx, sy.
Qed.

Lemma float_add_neg_self x :
  Float.is_finite x = true → Float.add x (Float.neg x) = Float.zero.
Proof.
  destruct x as [[]|[]| |s m e]; try done. intros _.
  unfold Float.add, Float.neg. simpl.
  rewrite Z.min_id.
  replace (cond_Zopp s _ + cond_Zopp (negb s) _) with 0; [done|].
  destruct s; simpl; lia.
Qed.

Lemma float_sq_zero x :
  Float.eqb x Float.zero = true → Float.mul x x = Float.zero.
Proof. by destruct x as [[]|[]| |[] m e]. Qed.

(** The product of a finite float and [0.0] is [0.0] or [-0.0]. *)
Lemma float_mul_zero_r x :
  Float.is_finite x = true →
  Float.mul x Float.zero = Float.zero
  ∨ Float.mul x Float.zero = Float.neg Float.zero.
Proof. destruct x as [[]|[]| |[] m e]; try done; intros _; auto. Qed.

Lemma float_add_zero_signed z :
  z = Float.zero ∨ z = Float.neg Float.zero → Float.add Float.zero z = Float.zero.
Proof. by intros [-> | ->]. Qed.

Lemma zip_add_comm xs ys : zip_with Float.add xs ys = zip_with Float.add ys xs.
Proof.
  revert ys. induction xs as [|x xs IH]; intros [|y ys]; simpl; try done.
  by rewrite float_add_comm, IH.
Qed.

Lemma zip_sub_as_add xs ys :
  zip_with Float.sub xs ys = zip_with Float.add xs (Float.neg <$> ys).
Proof.
  revert ys. induction xs as [|x xs IH]; intros [|y ys]; csimpl; try done.
  by rewrite float_sub_as_add, IH.
Qed.

Lemma zip_add_neg_self xs :
  all_finite xs = true →
  zip_with Float.add xs (Float.neg <$> xs) = zeros (length xs).
Proof.
  unfold all_finite, zeros. induction xs as [|x xs IH]; csimpl; [done|].
  intros [Hx Hxs]%andb_prop. by rewrite float_add_neg_self, IH.
Qed.

Lemma fmap_neg_neg (xs : list float) :
  Float.neg <$> (Float.neg <$> xs) = xs.
Proof.
  induction xs as [|x xs IH]; csimpl; [done|].
  unfold Float.neg at 1 2. by rewrite SFopp_involutive, IH.
Qed.

Lemma zip_sq_neg (xs : list float) :
  zip_with Float.mul (Float.neg <$> xs) (Float.neg <$> xs)
  = zip_with Float.mul xs xs.
Proof.
  induction xs as [|x xs IH]; csimpl; [done|].
  by rewrite FloatFacts.mul_neg_neg, IH.
Qed.

Lemma no_nan_Forall xs :
  no_nan xs = true → Forall (λ x, Float.is_nan x = false) xs.
Proof.
  unfold no_nan. induction xs as [|x xs IH]; simpl; [constructor|].
  intros [Hx Hxs]%andb_prop. constructor; [|by apply IH].
  by destruct (Float.is_nan x).
Qed.

Lemma all_zero_squares xs :
  all_zero xs = true → Forall (λ x, x = Float.zero) (zip_with Float.mul xs xs).
Proof.
  unfold all_zero. induction xs as [|x xs IH]; simpl; [constructor|].
  intros [Hx Hxs]%andb_prop. constructor; [by apply float_sq_zero|by apply IH].
Qed.

(** Adding floats that are all [0.0] or [-0.0] to [0.0] gives [0.0]. *)
Lemma sum_signed_zeros zs :
  Forall (λ z, z = Float.zero ∨ z = Float.neg Float.zero) zs →
  builtin_sum zs = Float.zero.
Proof.
  unfold builtin_sum. induction 1 as [|z zs Hz _ IH]; cbn [fold_left]; [done|].
  by rewrite float_add_zero_signed.
Qed.

Lemma products_with_zeros xs :
  all_finite xs = true →
  Forall (λ z, z = Float.zero ∨ z = Float.neg Float.zero)
         (zip_with Float.mul xs (zeros (length xs))).
Proof.
  unfold all_finite, zeros. induction xs as [|x xs IH]; simpl; [constructor|].
  intros [Hx Hxs]%andb_prop. constructor; [by apply float_mul_zero_r|by apply IH].
Qed.

(** ** Further properties: validation and construction *)

Lemma getitem_float h v zs i z :
  holds h v zs → zs !! i = Some z →
  Vector___getitem__ v (Z.of_nat i) h = (Ok (PyFloat z), h).
Proof.
  intros Hv Hz. rewrite (getitem_run _ _ _ _ Hv). unfold list___getitem__.
  destruct (Z.ltb_spec (Z.of_nat i) 0) as [?|_]; [lia|].
  destruct (Z.ltb_spec (Z.of_nat i) 0) as [?|_]; [lia|].
  by rewrite Nat2Z.id, list_lookup_fmap, Hz.
Qed.

Lemma holds_observes h v zs : holds h v zs → observes h v zs.
Proof.
  intros Hv. split; [exact (len_holds _ _ _ Hv)|].
  intros i z Hz. exact (getitem_float _ _ _ _ _ Hv Hz).
Qed.

(** What a method that has just built the list [zs] leaves behind. *)
Lemma new_vector_observes h zs :
  observes (h ++ [PyFloat <$> zs]) {| data := length h |} zs.
Proof. apply holds_observes, holds_new. Qed.

(** On constructed operands a validated call whose wrapped function does
    not raise on equal lengths raises only the errors of the validator. *)
Lemma validated_errors {A} (f : Vector → Vector → M A) h a o e h' :
  constructed h a → operand_ok h o →
  (∀ b xs ys, wf h a xs → wf h b ys → length xs = length ys →
              f a b h ≠ (Raise e, h')) →
  validate_vector f a o h = (Raise e, h') →
  validator_error h a o e ∧ h' = h.
Proof.
  intros [xs Ha] Ho Hf. destruct o as [b|x].
  - destruct Ho as [ys Hb].
    rewrite (validate_run f _ _ _ _ _ (proj1 Ha) (proj1 Hb)).
    rewrite !length_fmap. destruct (decide _) as [Hlen|Hne].
    + intros Hr. by destruct (Hf b xs ys Ha Hb Hlen).
    + intros [= <- <-]. split; [|done]. right. split; [done|].
      exists b, (length xs), (length ys).
      by rewrite (len_holds _ _ _ (proj1 Ha)), (len_holds _ _ _ (proj1 Hb)).
  - intros [= <- <-]. split; [|done]. left. split; [done|]. by exists x.
Qed.

(** X1: the binary entry points raise nothing but the two errors of the
    validator.  On constructed operands, when [+], [-], [@] or [distance]
    raises, the exception is the [TypeError] and the second operand is not a
    vector, or it is the length-mismatch [ValueError] and the two operands
    have different lengths; the constructor inside [+] and [-] and
    [math.sqrt] inside [distance] never raise; and the heap is as it was. *)
Theorem binary_operator_errors h a o e h' :
  constructed h a → operand_ok h o →
  (Vector___add__ a o h = (Raise e, h') → validator_error h a o e ∧ h' = h)
  ∧ (Vector___sub__ a o h = (Raise e, h') → validator_error h a o e ∧ h' = h)
  ∧ (Vector___matmul__ a o h = (Raise e, h') →
     validator_error h a o e ∧ h' = h)
  ∧ (Vector_distance a o h = (Raise e, h') →
     validator_error h a o e ∧ h' = h).
Proof.
  intros Ha Ho.
  assert (Vector___sub__ a o h = (Raise e, h') →
          validator_error h a o e ∧ h' = h) as Hsub.
  { apply validated_errors; [done..|]. intros b xs ys Hwa Hwb Hlen.
    by rewrite (sub_body_ok _ _ _ _ _ Hwa (proj1 Hwb) Hlen). }
  repeat apply conj; [| exact Hsub | |].
  - apply validated_errors; [done..|]. intros b xs ys Hwa Hwb Hlen.
    by rewrite (add_body_ok _ _ _ _ _ Hwa (proj1 Hwb) Hlen).
  - apply validated_errors; [done..|]. intros b xs ys Hwa Hwb Hlen.
    by rewrite (matmul_body_ok _ _ _ _ _ (proj1 Hwa) (proj1 Hwb)).
  - unfold Vector_distance. unmonad.
    destruct (Vector___sub__ a o h) as [[d| |] h1] eqn:E; [| |done].
    + destruct Ha as [xs Ha]. destruct o as [b|x]; [|done].
      destruct Ho as [ys Hb]. revert E. unfold Vector___sub__.
      rewrite (validate_run _ _ _ _ _ _ (proj1 Ha) (proj1 Hb)).
      rewrite !length_fmap. destruct (decide _) as [Hlen|_]; [|done].
      rewrite (sub_body_ok _ _ _ _ _ Ha (proj1 Hb) Hlen). intros [= <- <-].
      destruct (abs_ok _ _ _ (holds_new h (zip_with Float.sub xs ys)))
        as (m & _ & ->).
      done.
    + intros [= <- <-]. by apply Hsub.
Qed.

Lemma binary_operator_errors_witness :
  validator_error h_ab v_a (IsVector v_b) length_mismatch
  ∧ validator_error h_ab v_a (NotVector PyNone) type_mismatch.
Proof.
  assert (constructed h_ab v_a) as Ha
    by (exists [f1; f2]; split; [reflexivity|discriminate]).
  assert (constructed h_ab v_b) as Hb
    by (exists [f1; f2; f3]; split; [reflexivity|discriminate]).
  split.
  - exact (proj1 (proj2 (proj2 (proj2
             (binary_operator_errors h_ab v_a (IsVector v_b)
                length_mismatch h_ab Ha Hb))) eq_refl)).
  - exact (proj1 (proj1
             (binary_operator_errors h_ab v_a (NotVector PyNone)
                type_mismatch h_ab Ha I) eq_refl)).
Defined.

(** X2: the validator lets the wrapped function run only on two vectors of
    the same length: when a validated call returns a value, the second
    operand is a vector, [len] gives the same number on both operands, and
    the value and the heap are those of the wrapped function. *)
Theorem validator_guard {A} (f : Vector → Vector → M A) a o h r h' :
  validate_vector f a o h = (Ok r, h') →
  ∃ b n, o = IsVector b
         ∧ Vector___len__ a h = (Ok n, h)
         ∧ Vector___len__ b h = (Ok n, h)
         ∧ f a b h = (Ok r, h').
Proof.
  destruct o as [b|o]; [|done]. unfold validate_vector, Vector___len__, load.
  unmonad. destruct (h !! data a) as [d1|] eqn:Ha; [|done].
  destruct (h !! data b) as [d2|] eqn:Hb; [|done].
  destruct (Nat.eqb_spec (length d1) (length d2)) as [Hlen|Hlen]; [|done].
  simpl. intros Hf. exists b, (length d1). by rewrite Hlen, Hb.
Qed.

Lemma validator_guard_witness :
  ∃ b n, IsVector {| data := 1%nat |} = IsVector b
         ∧ Vector___len__ {| data := 0%nat |} h_ex = (Ok n, h_ex)
         ∧ Vector___len__ b h_ex = (Ok n, h_ex)
         ∧ matmul_body {| data := 0%nat |} b h_ex
           = (Ok (Float.of_Z 32), h_ex).
Proof.
  exact (validator_guard matmul_body {| data := 0%nat |}
           (IsVector {| data := 1%nat |}) h_ex (Float.of_Z 32) h_ex eq_refl).
Defined.

Lemma check_elements_run d :
  check_elements d
  = if forallb isinstance_float d then Ok tt else Raise not_a_float.
Proof.
  induction d as [|x d IH]; simpl; [done|].
  by destruct (isinstance_float x).
Qed.

(** X3: what the constructor does on a list [d]: the emptiness test comes
    first, then the type test of the elements; it succeeds exactly when [d]
    is non-empty and holds floats only.  The vector refers to the very list
    it was given -- no copy is made -- and the heap is unchanged in every
    case. *)
Theorem construction_outcome h l d :
  h !! l = Some d →
  Vector___init__ l h =
    (match d with
     | [] => Raise empty_data
     | _ :: _ =>
         if forallb isinstance_float d then Ok {| data := l |}
         else Raise not_a_float
     end, h).
Proof.
  intros Hl. rewrite (init_run _ _ _ Hl). unfold Vector___post_init__.
  destruct d as [|x d]; [done|]. rewrite check_elements_run.
  by destruct (forallb _ _).
Qed.

Lemma construction_outcome_witness :
  Vector___init__ 1%nat h_ab = (Ok v_b, h_ab).
Proof. exact (construction_outcome h_ab 1%nat _ eq_refl). Defined.

(** ** Further properties: the element-wise operators *)

(** X4: on two vectors of the same length [a + b] returns a new vector of
    that length whose element [i] is [a[i] + b[i]]; the operands read as
    before. *)
Theorem add_elementwise h a b xs ys :
  wf h a xs → wf h b ys → length xs = length ys →
  ∃ c h', Vector___add__ a (IsVector b) h = (Ok c, h')
          ∧ Vector___len__ c h' = (Ok (length xs), h')
          ∧ (∀ i x y, xs !! i = Some x → ys !! i = Some y →
               Vector___getitem__ c (Z.of_nat i) h'
               = (Ok (PyFloat (Float.add x y)), h'))
          ∧ observes h' a xs ∧ observes h' b ys.
Proof.
  intros Ha Hb Hlen. eexists _, _.
  split; [by apply add_ok; [|apply Hb|]|].
  pose proof (new_vector_observes h (zip_with Float.add xs ys)) as [Hl Hg].
  split; [|split; [|split]].
  - rewrite Hl, length_zip_with. do 2 f_equal. lia.
  - intros i x y Hx Hy. apply Hg, lookup_zip_with_Some. by exists x, y.
  - by apply holds_observes, holds_app, Ha.
  - by apply holds_observes, holds_app, Hb.
Qed.

Lemma add_elementwise_witness :
  ∃ c h', Vector___add__ v_a (IsVector v_a) h_ab = (Ok c, h')
          ∧ Vector___len__ c h' = (Ok 2%nat, h')
          ∧ (∀ i x y, [f1; f2] !! i = Some x → [f1; f2] !! i = Some y →
               Vector___getitem__ c (Z.of_nat i) h'
               = (Ok (PyFloat (Float.add x y)), h'))
          ∧ observes h' v_a [f1; f2] ∧ observes h' v_a [f1; f2].
Proof.
  assert (wf h_ab v_a [f1; f2]) as Ha by (split; [reflexivity|discriminate]).
  exact (add_elementwise h_ab v_a v_a _ _ Ha Ha eq_refl).
Defined.

(** X5: on two vectors of the same length [a - b] returns a new vector of
    that length whose element [i] is [a[i] - b[i]], with the operands in
    this order; the operands read as before. *)
Theorem sub_elementwise h a b xs ys :
  wf h a xs → wf h b ys → length xs = length ys →
  ∃ c h', Vector___sub__ a (IsVector b) h = (Ok c, h')
          ∧ Vector___len__ c h' = (Ok (length xs), h')
          ∧ (∀ i x y, xs !! i = Some x → ys !! i = Some y →
               Vector___getitem__ c (Z.of_nat i) h'
               = (Ok (PyFloat (Float.sub x y)), h'))
          ∧ observes h' a xs ∧ observes h' b ys.
Proof.
  intros Ha Hb Hlen. eexists _, _.
  split; [by apply sub_ok; [|apply Hb|]|].
  pose proof (new_vector_observes h (zip_with Float.sub xs ys)) as [Hl Hg].
  split; [|split; [|split]].
  - rewrite Hl, length_zip_with. do 2 f_equal. lia.
  - intros i x y Hx Hy. apply Hg, lookup_zip_with_Some. by exists x, y.
  - by apply holds_observes, holds_app, Ha.
  - by apply holds_observes, holds_app, Hb.
Qed.

Lemma sub_elementwise_witness :
  ∃ c h', Vector___sub__ v_a (IsVector v_a) h_ab = (Ok c, h')
          ∧ Vector___len__ c h' = (Ok 2%nat, h')
          ∧ (∀ i x y, [f1; f2] !! i = Some x → [f1; f2] !! i = Some y →
               Vector___getitem__ c (Z.of_nat i) h'
               = (Ok (PyFloat (Float.sub x y)), h'))
          ∧ observes h' v_a [f1; f2] ∧ observes h' v_a [f1; f2].
Proof.
  assert (wf h_ab v_a [f1; f2]) as Ha by (split; [reflexivity|discriminate]).
  exact (sub_elementwise h_ab v_a v_a _ _ Ha Ha eq_refl).
Defined.

(** X6: subtracting is adding the negation: [a - b] and [a + (-b)] are
    vectors with the same elements. *)
Theorem sub_is_add_neg h a b xs ys :
  wf h a xs → wf h b ys → length xs = length ys →
  ∃ c h1 nb h2 c' h3 zs,
    Vector___sub__ a (IsVector b) h = (Ok c, h1)
    ∧ Vector___neg__ b h = (Ok nb, h2)
    ∧ Vector___add__ a (IsVector nb) h2 = (Ok c', h3)
    ∧ observes h1 c zs ∧ observes h3 c' zs.
Proof.
  intros Ha Hb Hlen.
  eexists _, _, _, _, _, _, (zip_with Float.sub xs ys).
  split; [by apply sub_ok; [|apply Hb|]|].
  split; [by apply neg_ok|].
  split.
  - apply (add_ok _ _ _ xs (Float.neg <$> ys)).
    + by apply wf_app.
    + apply holds_new.
    + by rewrite length_fmap.
  - split; [apply new_vector_observes|].
    rewrite zip_sub_as_add. apply new_vector_observes.
Qed.

Lemma sub_is_add_neg_witness :
  ∃ c h1 nb h2 c' h3 zs,
    Vector___sub__ v_a (IsVector v_a) h_ab = (Ok c, h1)
    ∧ Vector___neg__ v_a h_ab = (Ok nb, h2)
    ∧ Vector___add__ v_a (IsVector nb) h2 = (Ok c', h3)
    ∧ observes h1 c zs ∧ observes h3 c' zs.
Proof.
  assert (wf h_ab v_a [f1; f2]) as Ha by (split; [reflexivity|discriminate]).
  exact (sub_is_add_neg h_ab v_a v_a _ _ Ha Ha eq_refl).
Defined.

(** X7: addition commutes: [a + b] and [b + a] have the same outcome -- the
    same new vector with the same elements, or the same length-mismatch
    error. *)
Theorem add_commutes h a b xs ys :
  wf h a xs → wf h b ys →
  Vector___add__ a (IsVector b) h = Vector___add__ b (IsVector a) h.
Proof.
  intros Ha Hb. unfold Vector___add__.
  rewrite (validate_run _ _ _ _ _ _ (proj1 Ha) (proj1 Hb)).
  rewrite (validate_run _ _ _ _ _ _ (proj1 Hb) (proj1 Ha)).
  rewrite !length_fmap.
  destruct (decide (length xs = length ys)) as [Hlen|Hne];
    destruct (decide (length ys = length xs)) as [Hlen'|Hne']; try done.
  rewrite (add_body_ok _ _ _ _ _ Ha (proj1 Hb) Hlen).
  rewrite (add_body_ok _ _ _ _ _ Hb (proj1 Ha) Hlen').
  by rewrite zip_add_comm.
Qed.

Lemma add_commutes_witness :
  Vector___add__ {| data := 0%nat |} (IsVector {| data := 1%nat |}) h_ex
  = Vector___add__ {| data := 1%nat |} (IsVector {| data := 0%nat |}) h_ex.
Proof.
  assert (wf h_ex {| data := 0%nat |} [f1; f2; f3]) as Ha
    by (split; [reflexivity|discriminate]).
  assert (wf h_ex {| data := 1%nat |} [Float.of_Z 4; f5; Float.of_Z 6]) as Hb
    by (split; [reflexivity|discriminate]).
  exact (add_commutes h_ex _ _ _ _ Ha Hb).
Defined.

(** X8: [-v] is a new vector of the same length whose element [i] is
    [-v[i]], and negating twice gives back the elements of [v]. *)
Theorem neg_elementwise_involutive h v xs :
  wf h v xs →
  ∃ nv h1 nnv h2,
    Vector___neg__ v h = (Ok nv, h1)
    ∧ Vector___len__ nv h1 = (Ok (length xs), h1)
    ∧ (∀ i x, xs !! i = Some x →
         Vector___getitem__ nv (Z.of_nat i) h1
         = (Ok (PyFloat (Float.neg x)), h1))
    ∧ Vector___neg__ nv h1 = (Ok nnv, h2)
    ∧ observes h2 nnv xs.
Proof.
  intros Hv. eexists _, _, _, _.
  split; [by apply neg_ok|].
  pose proof (new_vector_observes h (Float.neg <$> xs)) as [Hl Hg].
  split; [by rewrite Hl, length_fmap|].
  split; [intros i x Hx; apply Hg; by rewrite list_lookup_fmap, Hx|].
  split.
  - apply (neg_ok _ _ (Float.neg <$> xs)).
    split; [apply holds_new|apply fmap_nonempty, Hv].
  - rewrite fmap_neg_neg. apply new_vector_observes.
Qed.

Lemma neg_elementwise_involutive_witness :
  ∃ nv h1 nnv h2,
    Vector___neg__ v_a h_ab = (Ok nv, h1)
    ∧ Vector___len__ nv h1 = (Ok 2%nat, h1)
    ∧ (∀ i x, [f1; f2] !! i = Some x →
         Vector___getitem__ nv (Z.of_nat i) h1
         = (Ok (PyFloat (Float.neg x)), h1))
    ∧ Vector___neg__ nv h1 = (Ok nnv, h2)
    ∧ observes h2 nnv [f1; f2].
Proof.
  assert (wf h_ab v_a [f1; f2]) as Ha by (split; [reflexivity|discriminate]).
  exact (neg_elementwise_involutive h_ab v_a _ Ha).
Defined.

(** X9: for a vector [v] of finite elements, [v + (-v)] and [v - v] are
    vectors of [len(v)] elements that are all [0.0]. *)
Theorem additive_inverse h v xs :
  wf h v xs → all_finite xs = true →
  (∃ nv h1 z h2,
     Vector___neg__ v h = (Ok nv, h1)
     ∧ Vector___add__ v (IsVector nv) h1 = (Ok z, h2)
     ∧ observes h2 z (zeros (length xs)))
  ∧ (∃ z h3, Vector___sub__ v (IsVector v) h = (Ok z, h3)
             ∧ observes h3 z (zeros (length xs))).
Proof.
  intros Hv Hfin. split.
  - eexists _, _, _, _. split; [by apply neg_ok|]. split.
    + apply (add_ok _ _ _ xs (Float.neg <$> xs)).
      * by apply wf_app.
      * apply holds_new.
      * by rewrite length_fmap.
    + rewrite (zip_add_neg_self _ Hfin). apply new_vector_observes.
  - eexists _, _. split; [by apply sub_ok; [|apply Hv|]|].
    rewrite zip_sub_as_add, (zip_add_neg_self _ Hfin).
    apply new_vector_observes.
Qed.

Lemma additive_inverse_witness :
  ∃ z h3, Vector___sub__ v_a (IsVector v_a) h_ab = (Ok z, h3)
          ∧ observes h3 z (zeros 2).
Proof.
  assert (wf h_ab v_a [f1; f2]) as Ha by (split; [reflexivity|discriminate]).
  exact (proj2 (additive_inverse h_ab v_a _ Ha eq_refl)).
Defined.

(** X10: [v * k] never raises on a constructed vector: it returns a new
    vector of the same length whose element [i] is [v[i] * k], and [k * v]
    returns the same; [v] reads as before. *)
Theorem mul_elementwise h v xs k :
  wf h v xs →
  ∃ c h', Vector___mul__ v k h = (Ok c, h')
          ∧ Vector___rmul__ v k h = (Ok c, h')
          ∧ Vector___len__ c h' = (Ok (length xs), h')
          ∧ (∀ i x, xs !! i = Some x →
               Vector___getitem__ c (Z.of_nat i) h'
               = (Ok (PyFloat (Float.mul x k)), h'))
          ∧ observes h' v xs.
Proof.
  intros Hv. eexists _, _.
  split; [by apply mul_ok|]. split; [by apply mul_ok|].
  pose proof (new_vector_observes h ((λ a, Float.mul a k) <$> xs)) as [Hl Hg].
  split; [by rewrite Hl, length_fmap|].
  split; [intros i x Hx; apply Hg; by rewrite list_lookup_fmap, Hx|].
  by apply holds_observes, holds_app, Hv.
Qed.

Lemma mul_elementwise_witness :
  ∃ c h', Vector___mul__ v_a f3 h_ab = (Ok c, h')
          ∧ Vector___rmul__ v_a f3 h_ab = (Ok c, h')
          ∧ Vector___len__ c h' = (Ok 2%nat, h')
          ∧ (∀ i x, [f1; f2] !! i = Some x →
               Vector___getitem__ c (Z.of_nat i) h'
               = (Ok (PyFloat (Float.mul x f3)), h'))
          ∧ observes h' v_a [f1; f2].
Proof.
  assert (wf h_ab v_a [f1; f2]) as Ha by (split; [reflexivity|discriminate]).
  exact (mul_elementwise h_ab v_a _ f3 Ha).
Defined.

(** ** Further properties: dot product, magnitude, normalisation, distance *)

Lemma sign_clear_not_negative r :
  Float.sign_clear r = true → not_negative r.
Proof.
  unfold not_negative. destruct r as [[]|[]| |[] m e]; try done; auto.
Qed.

(** X11: the dot product of a vector with itself is never negative -- it
    is NaN or [>= 0.0] -- and it is [>= 0.0] when no element is NaN; the
    dot product of a vector of finite elements with a vector of zeros is
    [0.0].  Neither call changes the heap. *)
Theorem matmul_self_and_zero h v xs :
  holds h v xs →
  (∃ r, Vector___matmul__ v (IsVector v) h = (Ok r, h)
        ∧ not_negative r
        ∧ (no_nan xs = true → Float.leb Float.zero r = true))
  ∧ (∀ z, holds h z (zeros (length xs)) → all_finite xs = true →
          Vector___matmul__ v (IsVector z) h = (Ok Float.zero, h)).
Proof.
  intros Hv. split.
  - exists (dot xs xs). split; [by apply matmul_ok|].
    split; [apply sign_clear_not_negative, dot_self_sign_clear|].
    intros Hnn. by apply nonneg_leb, dot_self_nonneg, no_nan_Forall.
  - intros z Hz Hfin.
    rewrite (matmul_ok _ _ _ _ _ Hv Hz);
      [|by unfold zeros; rewrite length_replicate].
    unfold dot. by rewrite (sum_signed_zeros _ (products_with_zeros _ Hfin)).
Qed.

Lemma matmul_self_and_zero_witness :
  (∃ r, Vector___matmul__ {| data := 2%nat |} (IsVector {| data := 2%nat |})
          h_ex = (Ok r, h_ex)
        ∧ not_negative r
        ∧ (no_nan [f3; f4] = true → Float.leb Float.zero r = true))
  ∧ Vector___matmul__ {| data := 2%nat |} (IsVector v_zero) h_ex
    = (Ok Float.zero, h_ex).
Proof.
  split.
  - exact (proj1 (matmul_self_and_zero h_ex {| data := 2%nat |} [f3; f4]
                    eq_refl)).
  - exact (proj2 (matmul_self_and_zero h_ex {| data := 2%nat |} [f3; f4]
                    eq_refl) v_zero eq_refl eq_refl).
Defined.

(** X12: the magnitude of a vector is always defined -- [math.sqrt] is never
    given a negative number -- and computing it does not change the heap.
    It is NaN or has a clear sign bit (the model's NaN carries no sign); it
    is [>= 0.0] when no element is NaN, and it is [0.0] when every element
    is zero. *)
Theorem magnitude_defined h v xs :
  holds h v xs →
  ∃ m, Vector___abs__ v h = (Ok m, h)
       ∧ Float.sign_clear m = true
       ∧ (no_nan xs = true → Float.leb Float.zero m = true)
       ∧ (all_zero xs = true → m = Float.zero).
Proof.
  intros Hv. destruct (abs_ok _ _ _ Hv) as (m & Hm & Habs).
  exists m. split; [done|]. split; [|split].
  - destruct (math_sqrt_sign_clear _ (dot_self_sign_clear xs)) as (r & Hr & Hs).
    rewrite Hm in Hr. by injection Hr as ->.
  - intros Hnn.
    destruct (math_sqrt_nonneg _ (dot_self_nonneg _ (no_nan_Forall _ Hnn)))
      as (r & Hr & Hs).
    rewrite Hm in Hr. injection Hr as ->. by apply nonneg_leb.
  - intros Hz. revert Hm. unfold dot.
    rewrite (sum_zeros _ (all_zero_squares _ Hz)). by intros [= <-].
Qed.

Lemma magnitude_defined_witness :
  ∃ m, Vector___abs__ v_zero h_ex = (Ok m, h_ex)
       ∧ Float.sign_clear m = true
       ∧ (no_nan [Float.zero; Float.zero] = true
          → Float.leb Float.zero m = true)
       ∧ (all_zero [Float.zero; Float.zero] = true → m = Float.zero).
Proof.
  exact (magnitude_defined h_ex v_zero [Float.zero; Float.zero] eq_refl).
Defined.

(** X13: a vector and its negation have the same magnitude. *)
Theorem magnitude_of_negation h v xs :
  wf h v xs →
  ∃ nv h1, Vector___neg__ v h = (Ok nv, h1)
           ∧ fst (Vector___abs__ nv h1) = fst (Vector___abs__ v h).
Proof.
  intros Hv. eexists _, _. split; [by apply neg_ok|].
  rewrite (abs_run _ _ _ (holds_new h (Float.neg <$> xs))).
  rewrite (abs_run _ _ _ (proj1 Hv)). simpl.
  unfold dot. by rewrite zip_sq_neg.
Qed.

Lemma magnitude_of_negation_witness :
  ∃ nv h1, Vector___neg__ v_a h_ab = (Ok nv, h1)
           ∧ fst (Vector___abs__ nv h1) = fst (Vector___abs__ v_a h_ab).
Proof.
  assert (wf h_ab v_a [f1; f2]) as Ha by (split; [reflexivity|discriminate]).
  exact (magnitude_of_negation h_ab v_a _ Ha).
Defined.

(** X14: normalising is dividing by the magnitude: [v.normalize()] has the
    outcome of [v / abs(v)] -- the same new vector, or the same
    [ZeroDivisionError]. *)
Theorem normalize_is_truediv_by_abs h v xs :
  wf h v xs →
  Vector_normalize v h = (m ← Vector___abs__ v; Vector___truediv__ v m) h.
Proof.
  intros Hv. destruct (normalize_outcome _ _ _ Hv) as (m & Habs & ->).
  step Habs. by rewrite (truediv_outcome _ _ _ _ Hv).
Qed.

Lemma normalize_is_truediv_by_abs_witness :
  Vector_normalize {| data := 2%nat |} h_ex
  = (m ← Vector___abs__ {| data := 2%nat |};
     Vector___truediv__ {| data := 2%nat |} m) h_ex.
Proof.
  assert (wf h_ex {| data := 2%nat |} [f3; f4]) as Hv
    by (split; [reflexivity|discriminate]).
  exact (normalize_is_truediv_by_abs h_ex _ _ Hv).
Defined.

(** X15: on two constructed vectors [distance] raises the length-mismatch
    [ValueError] when the lengths differ, leaving the heap as it was, and
    otherwise never raises: it returns a float that is NaN or [>= 0.0],
    having allocated one list, the difference of the two vectors. *)
Theorem distance_outcome h a b xs ys :
  wf h a xs → wf h b ys →
  (length xs ≠ length ys →
     Vector_distance a (IsVector b) h = (Raise length_mismatch, h))
  ∧ (length xs = length ys →
     ∃ r, Vector_distance a (IsVector b) h
          = (Ok r, h ++ [PyFloat <$> zip_with Float.sub xs ys])
          ∧ not_negative r).
Proof.
  intros Ha Hb. split.
  - intros Hne. unfold Vector_distance, Vector___sub__.
    erewrite bind_raise; [done|].
    rewrite (validate_run _ _ _ _ _ _ (proj1 Ha) (proj1 Hb)).
    rewrite !length_fmap. by destruct (decide _).
  - intros Hlen. rewrite (distance_run _ _ _ _ _ Ha (proj1 Hb) Hlen).
    destruct (math_sqrt_sign_clear _
                (dot_self_sign_clear (zip_with Float.sub xs ys)))
      as (r & Hr & Hs).
    exists r. split; [|by apply sign_clear_not_negative].
    unfold sq_diffs. unfold dot in Hr. by rewrite Hr.
Qed.

Lemma distance_outcome_witness :
  Vector_distance v_a (IsVector v_b) h_ab = (Raise length_mismatch, h_ab)
  ∧ ∃ r, Vector_distance v_big_a (IsVector v_big_b) h_big
         = (Ok r, h_big ++ [PyFloat <$> zip_with Float.sub
                                          [big; Float.neg big] [big; big]])
         ∧ not_negative r.
Proof.
  assert (wf h_ab v_a [f1; f2]) as Ha by (split; [reflexivity|discriminate]).
  assert (wf h_ab v_b [f1; f2; f3]) as Hb
    by (split; [reflexivity|discriminate]).
  assert (wf h_big v_big_a [big; Float.neg big]) as Hba
    by (split; [reflexivity|discriminate]).
  assert (wf h_big v_big_b [big; big]) as Hbb
    by (split; [reflexivity|discriminate]).
  split.
  - apply (proj1 (distance_outcome h_ab v_a v_b _ _ Ha Hb)). simpl. lia.
  - exact (proj2 (distance_outcome h_big v_big_a v_big_b _ _ Hba Hbb) eq_refl).
Defined.

(** ** Further properties: invariants of the whole interface *)

(** X16: the class invariant is established by the constructor and kept by
    every call: a vector that the constructor or a call returns holds a
    non-empty list of floats, and a vector that held one before a call still
    holds it afterwards. *)
Theorem class_invariant :
  (∀ l h v h', Vector___init__ l h = (Ok v, h') → constructed h' v)
  ∧ (∀ c h v, fst (perform c h) = Ok (VVector v) →
              constructed (snd (perform c h)) v)
  ∧ (∀ c h v xs, wf h v xs → wf (snd (perform c h)) v xs).
Proof.
  split; [|split].
  - intros l h v h'. apply init_wf.
  - intros c h. apply invariant_kept.
  - intros c h v xs Hv. destruct (extends_perform c h) as [k ->].
    by apply wf_app.
Qed.

Lemma class_invariant_witness :
  constructed h_ab v_a
  ∧ wf (snd (perform (Truediv v_a Float.zero) h_ab)) v_a [f1; f2].
Proof.
  assert (wf h_ab v_a [f1; f2]) as Ha by (split; [reflexivity|discriminate]).
  split.
  - exact (proj1 class_invariant 0%nat h_ab v_a h_ab eq_refl).
  - exact (proj2 (proj2 class_invariant) (Truediv v_a Float.zero)
             h_ab v_a _ Ha).
Defined.

Lemma vector_result c h xs v h' :
  wf h (self_of c) xs → operands_ok h c →
  perform c h = (Ok (VVector v), h') →
  ∃ zs, length zs = length xs
        ∧ v = {| data := length h |} ∧ h' = h ++ [PyFloat <$> zs].
Proof.
  intros Hv Hok Hr.
  destruct c; simpl in Hv, Hok, Hr;
    apply returning_ok in Hr as (r & Hr & E);
    try discriminate E; injection E as <-; revert Hr.
  - rewrite (neg_ok _ _ _ Hv). intros [= <- <-].
    eexists. split; [|done]. by rewrite length_fmap.
  - destruct Hok as [_ Ho]. destruct other as [b|o]; [|done].
    destruct Ho as [ys Hb]. unfold Vector___add__.
    rewrite (validate_run _ _ _ _ _ _ (proj1 Hv) (proj1 Hb)).
    rewrite !length_fmap. destruct (decide _) as [Hlen|_]; [|done].
    rewrite (add_body_ok _ _ _ _ _ Hv (proj1 Hb) Hlen). intros [= <- <-].
    eexists. split; [|done]. rewrite length_zip_with. lia.
  - destruct Hok as [_ Ho]. destruct other as [b|o]; [|done].
    destruct Ho as [ys Hb]. unfold Vector___sub__.
    rewrite (validate_run _ _ _ _ _ _ (proj1 Hv) (proj1 Hb)).
    rewrite !length_fmap. destruct (decide _) as [Hlen|_]; [|done].
    rewrite (sub_body_ok _ _ _ _ _ Hv (proj1 Hb) Hlen). intros [= <- <-].
    eexists. split; [|done]. rewrite length_zip_with. lia.
  - rewrite (mul_ok _ _ _ _ Hv). intros [= <- <-].
    eexists. split; [|done]. by rewrite length_fmap.
  - unfold Vector___rmul__. rewrite (mul_ok _ _ _ _ Hv). intros [= <- <-].
    eexists. split; [|done]. by rewrite length_fmap.
  - rewrite (truediv_outcome _ _ _ _ Hv).
    destruct (Float.eqb _ _); [done|]. intros [= <- <-].
    eexists. split; [|done]. unfold quotients. by rewrite length_fmap.
  - destruct (normalize_outcome _ _ _ Hv) as (m & _ & ->).
    destruct (Float.eqb _ _); [done|]. intros [= <- <-].
    eexists. split; [|done]. unfold quotients. by rewrite length_fmap.
Qed.

(** X17: the dimension is preserved: whenever a call on constructed operands
    returns a vector, that vector has as many elements as the vector the
    call was made on. *)
Theorem length_preserved c h xs v :
  wf h (self_of c) xs → operands_ok h c →
  fst (perform c h) = Ok (VVector v) →
  Vector___len__ v (snd (perform c h)) = (Ok (length xs), snd (perform c h)).
Proof.
  intros Hv Hok Hr. destruct (perform c h) as [r h'] eqn:Hp.
  simpl in *. subst r.
  destruct (vector_result _ _ _ _ _ Hv Hok Hp) as (zs & Hlen & -> & ->).
  rewrite <- Hlen. apply new_vector_observes.
Qed.

Lemma length_preserved_witness :
  Vector___len__ {| data := 2%nat |} (snd (perform (Normalize v_a) h_ab))
  = (Ok 2%nat, snd (perform (Normalize v_a) h_ab)).
Proof.
  assert (wf h_ab v_a [f1; f2]) as Ha by (split; [reflexivity|discriminate]).
  assert (constructed h_ab v_a) as Hc by (by exists [f1; f2]).
  exact (length_preserved (Normalize v_a) h_ab [f1; f2] {| data := 2%nat |}
           Ha Hc eq_refl).
Defined.

Lemma read_only_pure {A} (o : outcome A) : read_only (λ h, (o, h)).
Proof. by intros h. Qed.

Lemma read_only_load l : read_only (load l).
Proof. intros h. unfold load. by destruct (h !! l). Qed.

Lemma read_only_bind {A B} (m : M A) (k : A → M B) :
  read_only m → (∀ a, read_only (k a)) → read_only (m ≫= k).
Proof.
  intros Hm Hk h. specialize (Hm h). unmonad.
  destruct (m h) as [[a| |] h1]; simpl in *; subst h1; [apply Hk|done..].
Qed.

Lemma read_only_elements v : read_only (elements v).
Proof.
  unfold elements. apply read_only_bind; [apply read_only_load|].
  intros d. destruct (as_floats d); apply read_only_pure.
Qed.

Lemma read_only_len v : read_only (Vector___len__ v).
Proof.
  unfold Vector___len__. apply read_only_bind; [apply read_only_load|].
  intros d. apply read_only_pure.
Qed.

Lemma read_only_matmul v o : read_only (Vector___matmul__ v o).
Proof.
  unfold Vector___matmul__, validate_vector.
  destruct o as [b|o]; [|apply read_only_pure].
  do 2 (apply read_only_bind; [apply read_only_len|intros ?]).
  destruct (negb _); [apply read_only_pure|]. unfold matmul_body.
  do 2 (apply read_only_bind; [apply read_only_elements|intros ?]).
  apply read_only_pure.
Qed.

(** X18: the constructor and the methods that return no vector -- [len],
    indexing, the dot product and the magnitude -- leave the heap exactly as
    it was, on any operands and whether they succeed or raise. *)
Theorem read_only_methods :
  (∀ l, read_only (Vector___init__ l))
  ∧ (∀ v, read_only (Vector___len__ v))
  ∧ (∀ v index, read_only (Vector___getitem__ v index))
  ∧ (∀ v o, read_only (Vector___matmul__ v o))
  ∧ (∀ v, read_only (Vector___abs__ v)).
Proof.
  repeat apply conj.
  - intros l. unfold Vector___init__.
    apply read_only_bind; [apply read_only_load|intros d].
    apply read_only_bind; [apply read_only_pure|intros ?].
    apply read_only_pure.
  - apply read_only_len.
  - intros v index. unfold Vector___getitem__.
    apply read_only_bind; [apply read_only_load|intros d].
    apply read_only_pure.
  - apply read_only_matmul.
  - intros v. unfold Vector___abs__.
    apply read_only_bind; [apply read_only_matmul|intros s].
    apply read_only_pure.
Qed.
